(** * typechecked: the generic dispatcher [_check_generic] and [CacheKey]

    A shallow embedding of [src/typechecked/_generic.py] and
    [src/typechecked/_validation_cache/_cache_key.py].

    Python values (objects, classes, type hints) are an abstract type
    [value]; every built-in the code applies to them ([id], [type],
    [isinstance], [issubclass], [hasattr], [getattr], truth value, [==],
    [hash], iteration) is a field of the interface [PyRuntime].  The
    validation cache and the [set] objects holding the cycle-guard tokens
    live in an explicit state, sets being addressed by reference so that
    aliasing of the [parents] argument is visible.  *)

From Stdlib Require Import ZArith Bool Lia.
From stdpp Require Import base list strings.

Open Scope Z_scope.
Open Scope list_scope.

(** ** The Python runtime seen by the code *)

(** The abstract base classes of [collections.abc] the dispatcher probes. *)
Inductive ABC := Mapping | Set_ | Sequence | Collection | Iterable | Callable.

#[global] Instance ABC_eq_dec : EqDecision ABC.
Proof. solve_decision. Defined.

(** [_error_tags.py]: the tags [_generic.py] raises with. *)
Inductive TypeHintsErrorTag :=
| NON_RUNTIME_CHECKABLE_PROTOCOL
| VALIDATION_FAILED
| TYPE_HINT_MISMATCH.

(** The message templates of the [raise] statements of [_generic.py]. *)
Inductive ErrorMessage :=
| MsgNotInstanceOfTypeHint      (* line 73 *)
| MsgProtocolNotRuntime         (* line 84 *)
| MsgNotInstanceOf              (* line 111 *)
| MsgNotInstanceOfOrigin        (* line 121 *)
| MsgOutsideTypedDict           (* line 131 *)
| MsgInvalidForIsinstance       (* line 134 *)
| MsgNotInstanceOfGeneric       (* lines 192, 249, 260 *)
| MsgGenericParameter.          (* lines 212, 233 *)

(** The exceptions the code raises or lets through. *)
Inductive Exn :=
| TypeCheckedTypeError (msg : ErrorMessage) (tag : TypeHintsErrorTag)
| PyTypeError
| PyIndexError
| PyAttributeError
| PyOther (n : nat).

(** How [for item in obj] ends after the items it yields: the iterator
    is exhausted, [iter] or [next] raises an exception, or [next] does
    not return. *)
Inductive IterEnd :=
| Exhausted
| IterRaises (e : Exn)
| IterHangs.

Class PyRuntime (value : Type) := {
  (* id(v) *)
  py_id : value -> Z;
  (* type(v) *)
  py_type : value -> value;
  (* a == b *)
  py_eq : value -> value -> bool;
  (* whether hash(v) returns; false when it raises TypeError *)
  py_hashable : value -> bool;
  (* hash(v) when it returns, hash of an int, hash of a tuple from the
     hashes of its items *)
  py_hash : value -> Z;
  py_hash_int : Z -> Z;
  py_hash_tuple : list Z -> Z;
  (* bool(v) *)
  py_bool : value -> bool;
  (* isinstance(a, b); None when it raises TypeError *)
  py_isinstance : value -> value -> option bool;
  (* issubclass(a, abc); None when it raises TypeError *)
  py_issubclass : value -> ABC -> option bool;
  (* isinstance(v, type) *)
  py_is_class : value -> bool;
  (* v.__mro__ when hasattr(v, '__mro__') *)
  py_mro : value -> option (list value);
  (* truth value of getattr(v, '_is_runtime_protocol', False) *)
  py_is_runtime_protocol : value -> bool;
  (* getattr(v.__orig_class__, '__args__', ()) when hasattr(v, '__orig_class__') *)
  py_orig_class_args : value -> option (list value);
  (* getattr(t, '__origin__', None) and getattr(t, '__args__', None) *)
  py_origin_attr : value -> option value;
  py_args_attr : value -> option (list value);
  (* hasattr(v, '__iter__') *)
  py_has_iter : value -> bool;
  (* hasattr(v, '__name__') *)
  py_has_name : value -> bool;
  (* the items [for item in v] yields, in order; None when iter(v) raises
     TypeError *)
  py_iter : value -> option (list value);
  (* how the iteration of v ends once these items are yielded *)
  py_iter_end : value -> IterEnd;
  (* typechecked._immutable.is_immutable *)
  is_immutable : value -> bool;
  (* constants *)
  py_None : value;
  py_NoneType : value;
  py_Protocol : value;
  py_Any : value;
  py_Ellipsis : value;
  Required : value;
  NotRequired : value;
  ReadOnly : value;
  Never : value
}.

(** [a is b]: object identity. *)
Definition py_is {value : Type} `{!PyRuntime value} (a b : value) : bool :=
  py_id a =? py_id b.

(** Equality of two items inside a tuple, list or set: identity first,
    then [==]. *)
Definition py_item_eq {value : Type} `{!PyRuntime value} (a b : value) : bool :=
  py_is a b || py_eq a b.

(** ** _constants.py, _check_result.py, _options.py *)

Definition IS_VALID : bool := true.
Definition NOT_VALID : bool := false.
Definition IS_IMMUTABLE : bool := true.
Definition NOT_IMMUTABLE : bool := false.

Record CheckResult := mkCheckResult { valid : bool; immutable : bool }.

(** What a call does: return, raise, or not come back. *)
Inductive Outcome (A : Type) :=
| Ret (a : A)
| Raise (e : Exn)
| Diverge.
Arguments Ret {A} a.
Arguments Raise {A} e.
Arguments Diverge {A}.

Record Options {value : Type} := mkOptions { noncachable_types : list value }.
Arguments Options value : clear implicits.
Arguments mkOptions {value} _.

(** ** _validation_cache/_cache_key.py *)

Section CacheKey.
Context {value : Type} `{!PyRuntime value}.

Record CacheKey := mkCacheKey { obj_type : value; instance_id : Z }.

(** [CacheKey.__init__] *)
Definition CacheKey__init__ (cls_type obj : value) : CacheKey :=
  let cls_type := if py_is cls_type py_None then py_NoneType else cls_type in
  {| obj_type := cls_type; instance_id := py_id obj |}.

(** [CacheKey.__hash__]: the hash of the pair. *)
Definition CacheKey__hash__ (self : CacheKey) : Z :=
  py_hash_tuple [py_hash (obj_type self); py_hash_int (instance_id self)].

(** Equality of the tuples [(obj_type, instance_id)]: item by item. *)
Fixpoint py_tuple_eq (eqs : list bool) : bool :=
  match eqs with
  | [] => true
  | e :: eqs => if e then py_tuple_eq eqs else false
  end.

(** [CacheKey.__eq__] on two keys. *)
Definition CacheKey__eq__ (self other : CacheKey) : bool :=
  py_tuple_eq [py_item_eq (obj_type self) (obj_type other);
               instance_id self =? instance_id other].

(** Whether a dict slot holding [k] answers a probe with [probe]: equal
    hashes, then [__eq__]. *)
Definition dict_key_match (probe k : CacheKey) : bool :=
  (CacheKey__hash__ probe =? CacheKey__hash__ k) && CacheKey__eq__ probe k.
End CacheKey.
Arguments CacheKey value : clear implicits.

(** ** The validation cache and the cycle-guard sets *)

Section State.
Context {value : Type} `{!PyRuntime value}.

(** Modelled from the spec: [_validation_state.ValidationState] is not
    among the sources; section 3 gives it as the tuple (object identity,
    type hint, context label). *)
Record ValidationState := mkValidationState {
  vs_id : Z; vs_type_hint : value; vs_context : string }.

Definition ValidationState__eq__ (a b : ValidationState) : bool :=
  py_tuple_eq [vs_id a =? vs_id b;
               py_item_eq (vs_type_hint a) (vs_type_hint b);
               String.eqb (vs_context a) (vs_context b)].

(** A Python [set] of tokens: its elements, without repetition. *)
Definition PySet := list ValidationState.

(** [token in s] *)
Definition set_contains (s : PySet) (token : ValidationState) : bool :=
  existsb (ValidationState__eq__ token) s.

(** The elements of [s] after [s.add(token)]. *)
Definition set_added (s : PySet) (token : ValidationState) : PySet :=
  if set_contains s token then s else s ++ [token].

(** The dict behind [_CACHE]: its slots, most recent first. *)
Definition Cache := list (CacheKey value * bool).

(** The state the code reads and writes: the module-level cache, and the
    heap of set objects, a set being named by its index. *)
Record State := mkState { cache : Cache; sets : list PySet }.

Definition cache_lookup (c : Cache) (k : CacheKey value) : option bool :=
  snd <$> List.find (fun e => dict_key_match k (fst e)) c.

Definition cache_store (c : Cache) (k : CacheKey value) (v : bool) : Cache :=
  (k, v) :: List.filter (fun e => negb (dict_key_match k (fst e))) c.

(** Modelled from the spec: [_cache._CACHE.valid_in_cache] is not among
    the sources; section 4.2: the cached verdict if present, else [None],
    looked up by (type_hint, identity(obj)). *)
Definition valid_in_cache (type_hint obj : value) (c : Cache) : option bool :=
  cache_lookup c (CacheKey__init__ type_hint obj).

(** [type(obj) in noncachable_types] *)
Definition is_noncachable (obj : value) (noncachable : list value) : bool :=
  existsb (py_item_eq (py_type obj)) noncachable.

(** Modelled from the spec: [_cache._CACHE.add_cache_entry] is not among
    the sources; section 4.2: writes the entry only if [type(obj)] is not
    in [noncachable_types]; it does not look at immutability itself. *)
Definition add_cache_entry (type_hint obj : value) (v : bool)
    (noncachable : list value) (c : Cache) : Cache :=
  if is_noncachable obj noncachable then c
  else cache_store c (CacheKey__init__ type_hint obj) v.

(** The elements of the set object [r]. *)
Definition set_at (s : State) (r : nat) : PySet := default [] (sets s !! r).

(** What [_check_generic] itself does, in order: its calls of
    [add_cache_entry], of a structural matcher and of
    [_check_instance_of_typehint], each with what came back.  [seen] is
    the content of the [parents] set handed over, at the time of the
    call. *)
Inductive Event :=
| EvCacheAdd (type_hint obj : value) (v : bool) (noncachable : list value)
| EvMatcher (kind : ABC) (parents : option nat) (seen : PySet)
    (res : Outcome CheckResult)
| EvCheck (item hint : value) (parents : nat) (seen : PySet)
    (context : string) (res : Outcome CheckResult).

(** *** The monad of the embedding: state, exceptions, and the trace *)
Definition M (A : Type) : Type := State -> Outcome A * State * list Event.

Definition ret {A} (a : A) : M A := fun s => (Ret a, s, []).
Definition raise {A} (e : Exn) : M A := fun s => (Raise e, s, []).
Definition bind {A B} (m : M A) (k : A -> M B) : M B :=
  fun s =>
    match m s with
    | (Ret a, s1, t1) => let '(o, s2, t2) := k a s1 in (o, s2, t1 ++ t2)
    | (Raise e, s1, t1) => (Raise e, s1, t1)
    | (Diverge, s1, t1) => (Diverge, s1, t1)
    end.
End State.
Arguments ValidationState value : clear implicits.
Arguments PySet value : clear implicits.
Arguments Cache value : clear implicits.
Arguments State value : clear implicits.
Arguments Event value : clear implicits.
Arguments M value A : clear implicits.

Declare Scope py_scope.
Delimit Scope py_scope with py.
Notation "x <- m ;; k" := (bind m (fun x => k))
  (at level 100, m at next level, right associativity) : py_scope.
Notation "m ;;; k" := (bind m (fun _ => k))
  (at level 100, right associativity) : py_scope.

(** ** _generic.py *)

Section Generic.
Context {value : Type} `{!PyRuntime value}.
Local Open Scope py_scope.

(** A call into code outside [_generic.py]: from the state to what comes
    back and the state it leaves. *)
Definition Call := State value -> Outcome CheckResult * State value.

(** The functions [_check_generic] imports and calls (lines 53-62). *)
Record Callees := mkCallees {
  _check_collections_abc_mapping :
    value -> value -> value -> list value -> Options value -> nat -> bool -> Call;
  _check_collections_abc_set :
    value -> value -> value -> list value -> Options value -> nat -> bool -> Call;
  _check_collections_abc_sequence :
    value -> value -> value -> list value -> Options value -> nat -> bool -> Call;
  _check_collections_abc_collection :
    value -> value -> value -> list value -> Options value -> nat -> bool -> Call;
  _check_collections_abc_iterable :
    value -> value -> value -> list value -> Options value -> nat -> bool -> Call;
  _check_collections_abc_callable :
    value -> value -> value -> list value -> bool -> Call;
  _check_instance_of_typehint :
    value -> value -> Options value -> nat -> bool -> string -> Call
}.

Variable callees : Callees.

(** *** Primitive steps *)

Definition read_cache (type_hint obj : value) : M value (option bool) :=
  fun s => (Ret (valid_in_cache type_hint obj (cache s)), s, []).

Definition write_cache (type_hint obj : value) (v : bool)
    (noncachable : list value) : M value unit :=
  fun s =>
    (Ret tt,
     {| cache := add_cache_entry type_hint obj v noncachable (cache s);
        sets := sets s |},
     [EvCacheAdd type_hint obj v noncachable]).

(** [parents.copy()]: a new set object with the same elements. *)
Definition set_copy (parents : nat) : M value nat :=
  fun s =>
    (Ret (length (sets s)),
     {| cache := cache s; sets := sets s ++ [set_at s parents] |},
     []).

(** [r.add(token)]: the set object [r] is changed in place. *)
Definition set_add (r : nat) (token : ValidationState value) : M value unit :=
  fun s =>
    (Ret tt,
     {| cache := cache s;
        sets := <[r := set_added (set_at s r) token]> (sets s) |},
     []).

Definition call_matcher (kind : ABC) (parents : option nat) (f : Call)
    : M value CheckResult :=
  fun s =>
    let '(o, s') := f s in
    (o, s', [EvMatcher kind parents (from_option (set_at s) [] parents) o]).

Definition call_check (item hint : value) (options : Options value)
    (parents : nat) (raise_on_error : bool) (context : string)
    : M value CheckResult :=
  fun s =>
    let '(o, s') :=
      _check_instance_of_typehint callees item hint options parents
        raise_on_error context s in
    (o, s', [EvCheck item hint parents (set_at s parents) context o]).

(** [issubclass(cls, abc)] outside a [try]: a TypeError goes up. *)
Definition issubclass (cls : value) (abc : ABC) : M value bool :=
  match py_issubclass cls abc with
  | Some b => ret b
  | None => raise PyTypeError
  end.

(** A step that neither reads nor writes the state. *)
Definition pure {A} (o : Outcome A) : M value A := fun s => (o, s, []).

(** *** Lines 78-81: a Protocol class that is not runtime checkable *)
Definition is_non_runtime_protocol (type_hint : value) : bool :=
  match py_mro type_hint with
  | Some mro =>
      existsb (fun base => py_is base py_Protocol) mro
      && negb (py_is_runtime_protocol type_hint)
  | None => false
  end.

(** *** Line 129: [origin in {Required, NotRequired, ReadOnly, Never}]
    evaluates to [True]: the test hashes [origin], and finds it when an
    element of the set has the same hash and is it or equals it.  For an
    [origin] that is not hashable the test raises TypeError; that case
    is taken first where the test is used. *)
Definition is_pseudo_origin (origin : value) : bool :=
  py_hashable origin
  && existsb (fun marker =>
                (py_hash origin =? py_hash marker) && py_item_eq origin marker)
       [Required; NotRequired; ReadOnly; Never].

(** *** Lines 88-100: origin and args of a bare class *)
Definition resolve_origin (type_hint : value) (origin : option value)
    (args : list value) : Outcome (option value * list value) :=
  match origin with
  | None =>
      if py_is_class type_hint then
        match py_issubclass type_hint Mapping with
        | None => Raise PyTypeError
        | Some true => Ret (Some type_hint, [py_Any; py_Any])
        | Some false =>
            match py_issubclass type_hint Iterable with
            | None => Raise PyTypeError
            | Some true => Ret (Some type_hint, [py_Any])
            | Some false =>
                match py_issubclass type_hint Callable with
                | None => Raise PyTypeError
                | Some true => Ret (Some type_hint, [py_Ellipsis; py_Any])
                | Some false => Ret (origin, args)
                end
            end
        end
      else Ret (origin, args)
  | Some _ => Ret (origin, args)
  end.

(** *** Lines 157-161: [issubclass(origin, (Iterable, Callable))] under
    [try], a TypeError giving [False] *)
Definition is_collections_abc (origin : value) : bool :=
  match py_issubclass origin Iterable with
  | None => false
  | Some true => true
  | Some false =>
      match py_issubclass origin Callable with
      | None => false
      | Some b => b
      end
  end.

(** *** Lines 155-185: the dispatch to one structural matcher *)
Definition dispatch (obj type_hint origin : value) (args : list value)
    (options : Options value) (new_parents : nat) (raise_on_error : bool)
    : M value (option CheckResult) :=
  if py_bool origin then
    if is_collections_abc origin then
      b <- issubclass origin Mapping ;;
      if b then
        r <- call_matcher Mapping (Some new_parents)
               (_check_collections_abc_mapping callees
                  obj type_hint origin args options new_parents raise_on_error) ;;
        ret (Some r)
      else
      b <- issubclass origin Set_ ;;
      if b then
        r <- call_matcher Set_ (Some new_parents)
               (_check_collections_abc_set callees
                  obj type_hint origin args options new_parents raise_on_error) ;;
        ret (Some r)
      else
      b <- issubclass origin Sequence ;;
      if b then
        r <- call_matcher Sequence (Some new_parents)
               (_check_collections_abc_sequence callees
                  obj type_hint origin args options new_parents raise_on_error) ;;
        ret (Some r)
      else
      b <- issubclass origin Collection ;;
      if b then
        r <- call_matcher Collection (Some new_parents)
               (_check_collections_abc_collection callees
                  obj type_hint origin args options new_parents raise_on_error) ;;
        ret (Some r)
      else
      b <- issubclass origin Iterable ;;
      if b then
        r <- call_matcher Iterable (Some new_parents)
               (_check_collections_abc_iterable callees
                  obj type_hint origin args options new_parents raise_on_error) ;;
        ret (Some r)
      else
      b <- issubclass origin Callable ;;
      if b then
        r <- call_matcher Callable None
               (_check_collections_abc_callable callees
                  obj type_hint origin args raise_on_error) ;;
        ret (Some r)
      else ret None
    else ret None
  else ret None.

(** *** Lines 205-214 and 226-235: the loop over [zip(obj_args, args)].
    [inl r]: the function returns [r] from inside the loop; [inr imm]:
    the loop ends with [obj_is_immutable = imm]. *)
Fixpoint check_parameters (pairs : list (value * value))
    (options : Options value) (parents : nat) (raise_on_error : bool)
    (obj_is_immutable : bool) : M value (CheckResult + bool) :=
  match pairs with
  | [] => ret (inr obj_is_immutable)
  | (item, hint) :: pairs =>
      r <- call_check item hint options parents raise_on_error
             "generic_parameter" ;;
      let obj_is_immutable := obj_is_immutable && immutable r in
      if negb (valid r) then
        if raise_on_error then
          raise (TypeCheckedTypeError MsgGenericParameter VALIDATION_FAILED)
        else ret (inl (mkCheckResult NOT_VALID NOT_IMMUTABLE))
      else
        check_parameters pairs options parents raise_on_error obj_is_immutable
  end.

(** *** Lines 242-251: the loop over the items of [obj], each against
    [args[0]] *)
Fixpoint check_items (items : list value) (args : list value)
    (options : Options value) (parents : nat) (raise_on_error : bool)
    (obj_is_immutable : bool) : M value (CheckResult + bool) :=
  match items with
  | [] => ret (inr obj_is_immutable)
  | item :: items =>
      match args with
      | [] => raise PyIndexError
      | hint :: _ =>
          r <- call_check item hint options parents raise_on_error
                 "generic_item" ;;
          let obj_is_immutable := obj_is_immutable && immutable r in
          if negb (valid r) then
            if raise_on_error then
              raise (TypeCheckedTypeError MsgNotInstanceOfGeneric TYPE_HINT_MISMATCH)
            else ret (inl (mkCheckResult NOT_VALID NOT_IMMUTABLE))
          else
            check_items items args options parents raise_on_error obj_is_immutable
      end
  end.

(** *** Lines 240-262: the last fallback and the final return.  The
    [for] statement asks [obj] for one item at a time: the items are
    checked in the order they are yielded, and the way the iteration
    ends is met only when the loop asks for the item after the last. *)
Definition fallback_items (obj type_hint : value) (args : list value)
    (options : Options value) (parents : nat) (raise_on_error : bool)
    (obj_is_immutable : bool) : M value CheckResult :=
  looped <-
    (if py_has_iter obj then
       match py_iter obj with
       | None => raise PyTypeError
       | Some items =>
           checked <- check_items items args options parents raise_on_error
                        obj_is_immutable ;;
           match checked with
           | inl r => ret (inl r)
           | inr obj_is_immutable =>
               match py_iter_end obj with
               | Exhausted => ret (inr obj_is_immutable)
               | IterRaises e => raise e
               | IterHangs => pure Diverge
               end
           end
       end
     else ret (inr obj_is_immutable)) ;;
  match looped with
  | inl r => ret r
  | inr obj_is_immutable =>
      let result := mkCheckResult IS_VALID obj_is_immutable in
      (if obj_is_immutable then
         write_cache type_hint obj (valid result) (noncachable_types options)
       else ret tt) ;;;
      if raise_on_error && negb (valid result) then
        raise (TypeCheckedTypeError MsgNotInstanceOfGeneric TYPE_HINT_MISMATCH)
      else ret result
  end.

(** *** Lines 201-238: generic parameters recorded on the object or on
    its type.  [inl r]: the function returns [r]; [inr tt]: go on. *)
Definition parameters_done (type_hint obj : value) (options : Options value)
    (looped : CheckResult + bool) : M value (CheckResult + unit) :=
  match looped with
  | inl r => ret (inl r)
  | inr obj_is_immutable =>
      (if obj_is_immutable then
         write_cache type_hint obj IS_VALID (noncachable_types options)
       else ret tt) ;;;
      ret (inl (mkCheckResult IS_VALID obj_is_immutable))
  end.

Definition fallback_parameters (obj type_hint origin : value)
    (args : list value) (options : Options value) (parents : nat)
    (raise_on_error : bool) (obj_is_immutable : bool)
    : M value (CheckResult + unit) :=
  match py_orig_class_args obj with
  | Some obj_args =>
      if (length obj_args =? length args)%nat then
        looped <- check_parameters (zip obj_args args) options parents
                    raise_on_error obj_is_immutable ;;
        parameters_done type_hint obj options looped
      else ret (inr tt)
  | None =>
      let obj_type := py_type obj in
      match py_origin_attr obj_type, py_args_attr obj_type with
      | Some obj_origin, Some obj_args =>
          if py_is obj_origin origin
             && (length obj_args =? length args)%nat then
            looped <- check_parameters (zip obj_args args) options parents
                        raise_on_error obj_is_immutable ;;
            parameters_done type_hint obj options looped
          else ret (inr tt)
      | _, _ => ret (inr tt)
      end
  end.

(** *** Lines 146-262: after the plain checks *)
Definition check_structure (obj type_hint origin : value) (args : list value)
    (options : Options value) (parents : nat) (raise_on_error : bool)
    (context : string) (obj_is_immutable : bool) : M value CheckResult :=
  new_parents <- set_copy parents ;;
  set_add new_parents (mkValidationState (py_id obj) type_hint context) ;;;
  result <- dispatch obj type_hint origin args options new_parents
              raise_on_error ;;
  match result with
  | Some result =>
      (if valid result && immutable result then
         write_cache type_hint obj (immutable result) (noncachable_types options)
       else ret tt) ;;;
      if raise_on_error && negb (valid result) then
        raise (TypeCheckedTypeError MsgNotInstanceOfGeneric TYPE_HINT_MISMATCH)
      else ret result
  | None =>
      p <- fallback_parameters obj type_hint origin args options parents
             raise_on_error obj_is_immutable ;;
      match p with
      | inl r => ret r
      | inr _ =>
          fallback_items obj type_hint args options parents raise_on_error
            obj_is_immutable
      end
  end.

(** *** Lines 102-144: the plain [isinstance] checks *)
Definition check_resolved (obj type_hint : value) (origin : option value)
    (args : list value) (options : Options value) (parents : nat)
    (raise_on_error : bool) (context : string) (obj_is_immutable : bool)
    : M value CheckResult :=
  match origin with
  | None =>
      match py_isinstance obj type_hint with
      | None => raise PyTypeError
      | Some true =>
          (if obj_is_immutable then
             write_cache type_hint obj IS_VALID (noncachable_types options)
           else ret tt) ;;;
          ret (mkCheckResult IS_VALID obj_is_immutable)
      | Some false =>
          if raise_on_error then
            raise (TypeCheckedTypeError MsgNotInstanceOf VALIDATION_FAILED)
          else ret (mkCheckResult NOT_VALID obj_is_immutable)
      end
  | Some origin =>
      match py_isinstance obj origin with
      | Some false =>
          if raise_on_error then
            (* the message reads [origin.__name__]; an AttributeError is
               no TypeError and leaves the [try] as it is *)
            if py_has_name origin then
              raise (TypeCheckedTypeError MsgNotInstanceOfOrigin VALIDATION_FAILED)
            else raise PyAttributeError
          else ret (mkCheckResult NOT_VALID obj_is_immutable)
      | None =>
          (* inside the handler: the membership test hashes [origin] *)
          if negb (py_hashable origin) then raise PyTypeError
          else if is_pseudo_origin origin
          then raise (TypeCheckedTypeError MsgOutsideTypedDict VALIDATION_FAILED)
          else raise (TypeCheckedTypeError MsgInvalidForIsinstance VALIDATION_FAILED)
      | Some true =>
          let plain :=
            match args with
            | [] =>
                match py_isinstance obj type_hint with
                | Some b => b
                | None => false
                end
            | _ :: _ => false
            end in
          if plain then
            (if obj_is_immutable then
               write_cache type_hint obj IS_VALID (noncachable_types options)
             else ret tt) ;;;
            ret (mkCheckResult IS_VALID obj_is_immutable)
          else
            check_structure obj type_hint origin args options parents
              raise_on_error context obj_is_immutable
      end
  end.

(** *** [_check_generic] *)
Definition _check_generic (obj type_hint : value) (origin : option value)
    (args : list value) (options : Options value) (parents : nat)
    (raise_on_error : bool) (context : string) : M value CheckResult :=
  cached_result <- read_cache type_hint obj ;;
  match cached_result with
  | Some cached_result =>
      if cached_result || negb raise_on_error then
        ret (mkCheckResult cached_result IS_IMMUTABLE)
      else
        raise (TypeCheckedTypeError MsgNotInstanceOfTypeHint TYPE_HINT_MISMATCH)
  | None =>
      let obj_is_immutable := is_immutable obj in
      if is_non_runtime_protocol type_hint then
        if raise_on_error then
          raise (TypeCheckedTypeError MsgProtocolNotRuntime
                   NON_RUNTIME_CHECKABLE_PROTOCOL)
        else ret (mkCheckResult NOT_VALID obj_is_immutable)
      else
        resolved <- pure (resolve_origin type_hint origin args) ;;
        check_resolved obj type_hint (fst resolved) (snd resolved) options
          parents raise_on_error context obj_is_immutable
  end.

(** Whether the dispatch of lines 155-185 gets to its chain of
    [issubclass] tests: a truthy origin that is a subclass of Iterable or
    Callable. *)
Definition reaches_matchers (origin : value) : bool :=
  py_bool origin && is_collections_abc origin.

(** The order of section 4.4, step 8, and the first protocol in that
    order that [origin] satisfies. *)
Definition specificity_order : list ABC :=
  [Mapping; Set_; Sequence; Collection; Iterable; Callable].

Definition satisfies (origin : value) (abc : ABC) : bool :=
  bool_decide (py_issubclass origin abc = Some true).

Definition most_specific (origin : value) : option ABC :=
  List.find (satisfies origin) specificity_order.

(** The condition of line 225: the type of [obj] records this origin and
    as many arguments as the hint has. *)
Definition type_records_parameters (obj origin : value) (args : list value)
    : bool :=
  match py_origin_attr (py_type obj), py_args_attr (py_type obj) with
  | Some obj_origin, Some obj_args =>
      py_is obj_origin origin && (length obj_args =? length args)%nat
  | _, _ => false
  end.

(** *** Reading a trace and a pair of states *)

(** [m], run from [s], ends in an outcome, a state and a trace that
    satisfy [Q]. *)
Definition post {A} (m : M value A) (s : State value)
    (Q : Outcome A -> State value -> list (Event value) -> Prop) : Prop :=
  let '(o, s', t) := m s in Q o s' t.

(** The immutable flags reported by the nested checks that returned. *)
Fixpoint nested_flags (t : list (Event value)) : list bool :=
  match t with
  | [] => []
  | EvCheck _ _ _ _ _ (Ret r) :: t => immutable r :: nested_flags t
  | _ :: t => nested_flags t
  end.

(** Every set object of [s] is still there in [s'], with the same
    elements; [sets_preserved_except p] leaves the set [p] out. *)
Definition sets_preserved (s s' : State value) : Prop :=
  forall r, (r < length (sets s))%nat -> sets s' !! r = sets s !! r.

Definition sets_preserved_except (p : nat) (s s' : State value) : Prop :=
  forall r, (r < length (sets s))%nat -> r <> p -> sets s' !! r = sets s !! r.

(** What is assumed of the callees about the set objects: a matcher
    changes no set but the one it is handed, the callable matcher and
    [_check_instance_of_typehint] change none (section 4.3: parents sets
    are never mutated in place). *)
Record callees_keep_sets : Prop := {
  keep_mapping : forall obj h o args opts p raise_on_error s out s',
    _check_collections_abc_mapping callees obj h o args opts p raise_on_error s
      = (out, s') -> sets_preserved_except p s s';
  keep_set : forall obj h o args opts p raise_on_error s out s',
    _check_collections_abc_set callees obj h o args opts p raise_on_error s
      = (out, s') -> sets_preserved_except p s s';
  keep_sequence : forall obj h o args opts p raise_on_error s out s',
    _check_collections_abc_sequence callees obj h o args opts p raise_on_error s
      = (out, s') -> sets_preserved_except p s s';
  keep_collection : forall obj h o args opts p raise_on_error s out s',
    _check_collections_abc_collection callees obj h o args opts p raise_on_error s
      = (out, s') -> sets_preserved_except p s s';
  keep_iterable : forall obj h o args opts p raise_on_error s out s',
    _check_collections_abc_iterable callees obj h o args opts p raise_on_error s
      = (out, s') -> sets_preserved_except p s s';
  keep_callable : forall obj h o args raise_on_error s out s',
    _check_collections_abc_callable callees obj h o args raise_on_error s
      = (out, s') -> sets_preserved s s';
  keep_check : forall item h opts p raise_on_error ctx s out s',
    _check_instance_of_typehint callees item h opts p raise_on_error ctx s
      = (out, s') -> sets_preserved s s'
}.

(** An event that is a nested check on the set [parents] under the
    context [label]. *)
Definition is_check_on (parents : nat) (label : string) (e : Event value)
    : Prop :=
  exists item hint seen res, e = EvCheck item hint parents seen label res.

(** What the loops of lines 205-214, 226-235 and 242-251 leave, started
    from [s] with [obj_is_immutable = imm]. *)
Definition loop_post (s : State value) (parents : nat) (label : string)
    (imm raise_on_error : bool)
    : Outcome (CheckResult + bool) -> State value -> list (Event value) -> Prop :=
  fun o s' t =>
    (callees_keep_sets -> sets_preserved s s') /\
    Forall (is_check_on parents label) t /\
    match o with
    | Ret (inr imm') => imm' = imm && forallb id (nested_flags t)
    | Ret (inl r) =>
        r = mkCheckResult NOT_VALID NOT_IMMUTABLE /\ t <> [] /\
        raise_on_error = false
    | _ => True
    end.

(** Every structural matcher comes back (returns or raises) when it is
    called for [obj] and [type_hint] with the set object [p], in a state
    where [p] has the elements [seen]. *)
Definition matchers_come_back (obj type_hint : value) (options : Options value)
    (raise_on_error : bool) (p : nat) (seen : PySet value) : Prop :=
  forall s2 o args out s3,
    set_at s2 p = seen -> (p < length (sets s2))%nat ->
    (_check_collections_abc_mapping callees obj type_hint o args options p
       raise_on_error s2 = (out, s3) -> out <> Diverge) /\
    (_check_collections_abc_set callees obj type_hint o args options p
       raise_on_error s2 = (out, s3) -> out <> Diverge) /\
    (_check_collections_abc_sequence callees obj type_hint o args options p
       raise_on_error s2 = (out, s3) -> out <> Diverge) /\
    (_check_collections_abc_collection callees obj type_hint o args options p
       raise_on_error s2 = (out, s3) -> out <> Diverge) /\
    (_check_collections_abc_iterable callees obj type_hint o args options p
       raise_on_error s2 = (out, s3) -> out <> Diverge) /\
    (_check_collections_abc_callable callees obj type_hint o args
       raise_on_error s2 = (out, s3) -> out <> Diverge).

(** The calls of a structural matcher in a trace, and the calls of
    [_check_instance_of_typehint]. *)
Definition is_matcher_event (e : Event value) : bool :=
  match e with EvMatcher _ _ _ _ => true | _ => false end.
Definition is_check_event (e : Event value) : bool :=
  match e with EvCheck _ _ _ _ _ _ => true | _ => false end.
Definition is_cache_event (e : Event value) : bool :=
  match e with EvCacheAdd _ _ _ _ => true | _ => false end.
End Generic.

(** ** The recursion: entry point, dispatcher, structural matchers

    [_type_hints._check_instance_of_typehint] and the matchers of
    [_collections_abc] are not among the sources.  They are written here
    from sections 4.3 and 4.5 of the specification, around the
    [_check_generic] of the source, with a bound [n] on the depth of the
    calls: at depth 0 a call does not come back. *)

Section Recursion.
Context {value : Type} `{!PyRuntime value}.

(** How the entry point reads a hint: [typing.get_origin] and
    [typing.get_args]. *)
Variable get_origin : value -> option value.
Variable get_args : value -> list value.
(** What a matcher of each kind does with an object: its own test of
    the shape, the nested (element, hint) checks it makes in order, and
    the context label it gives them. *)
Variable shape_ok : ABC -> value -> list value -> bool.
Variable nested_checks : ABC -> value -> list value -> list (value * value).
Variable matcher_context : ABC -> string.
(** The immutable flag of the answer given when the guard stops a
    descent. *)
Variable guard_immutable : value -> bool.

Definition Check : Type :=
  value -> value -> Options value -> nat -> bool -> string -> @Call value.

(** A check that leaves the existing set objects alone. *)
Definition keeps_sets (check : Check) : Prop :=
  forall item h opts p raise_on_error ctx s out s',
    check item h opts p raise_on_error ctx s = (out, s') -> sets_preserved s s'.

(** Modelled from the spec: the loop of a structural matcher (section
    4.5): every nested check goes through the entry point with the
    [parents] set the matcher was given; [immutable] is the conjunction
    of the container's own classification and every inspected
    element's. *)
Fixpoint check_nested (check : Check) (pairs : list (value * value))
    (options : Options value) (parents : nat) (raise_on_error : bool)
    (context : string) (imm : bool) : @Call value :=
  fun s =>
    match pairs with
    | [] => (Ret (mkCheckResult IS_VALID imm), s)
    | (item, hint) :: pairs =>
        match check item hint options parents raise_on_error context s with
        | (Ret r, s1) =>
            if valid r then
              check_nested check pairs options parents raise_on_error
                context (imm && immutable r) s1
            else (Ret (mkCheckResult NOT_VALID (imm && immutable r)), s1)
        | (Raise e, s1) => (Raise e, s1)
        | (Diverge, s1) => (Diverge, s1)
        end
    end.

(** Modelled from the spec: a structural matcher (section 4.5). *)
Definition matcher (check : Check) (kind : ABC) (obj type_hint origin : value)
    (args : list value) (options : Options value) (parents : nat)
    (raise_on_error : bool) : @Call value :=
  fun s =>
    if shape_ok kind obj args then
      check_nested check (nested_checks kind obj args) options parents
        raise_on_error (matcher_context kind) (is_immutable obj) s
    else (Ret (mkCheckResult NOT_VALID (is_immutable obj)), s).

(** Modelled from the spec: the callable matcher takes no [parents] set
    and makes no nested check. *)
Definition matcher_callable (obj type_hint origin : value)
    (args : list value) (raise_on_error : bool) : @Call value :=
  fun s => (Ret (mkCheckResult (shape_ok Callable obj args) (is_immutable obj)), s).

Definition callees_of (check : Check) : Callees :=
  {| _check_collections_abc_mapping := matcher check Mapping;
     _check_collections_abc_set := matcher check Set_;
     _check_collections_abc_sequence := matcher check Sequence;
     _check_collections_abc_collection := matcher check Collection;
     _check_collections_abc_iterable := matcher check Iterable;
     _check_collections_abc_callable := matcher_callable;
     _check_instance_of_typehint := check |}.

(** What a computation of the embedding returns and leaves, without the
    trace. *)
Definition run {A} (m : M value A) : State value -> Outcome A * State value :=
  fun s => let '(o, s', _) := m s in (o, s').

(** Modelled from the spec: the entry point (section 4.3): the token of
    the descent is looked up in the caller's [parents] set; if it is
    there, the answer is valid without going further; otherwise the
    dispatcher is called. *)
Fixpoint check_at (n : nat) : Check :=
  match n with
  | O => fun _ _ _ _ _ _ s => (Diverge, s)
  | S n =>
      fun obj type_hint options parents raise_on_error context s =>
        let token := mkValidationState (py_id obj) type_hint context in
        if set_contains (set_at s parents) token then
          (Ret (mkCheckResult IS_VALID (guard_immutable obj)), s)
        else
          run (_check_generic (callees_of (check_at n)) obj type_hint
                 (get_origin type_hint) (get_args type_hint) options parents
                 raise_on_error context) s
  end.

(** The tokens of a finite world: every object, every hint, the
    caller's context and the labels of the matchers. *)
Definition universe (values : list value) (context : string)
    : list (ValidationState value) :=
  o ← values; h ← values; c ← context :: (matcher_context <$> specificity_order);
  [mkValidationState (py_id o) h c].

(** The tokens of [u] not yet in the set [seen]. *)
Definition unseen (u : list (ValidationState value)) (seen : PySet value) : nat :=
  length (List.filter (fun t => negb (set_contains seen t)) u).
End Recursion.

(** ** A small concrete runtime

    A handful of classes, hints and objects, with the answers Python
    gives for them, on which the statements below are run. *)

Module Toy.

Inductive tv :=
(* constants and typing markers *)
| t_None | t_NoneType | t_Protocol | t_Any | t_Ellipsis
| t_Required | t_NotRequired | t_ReadOnly | t_Never
(* classes: Box is a user-defined generic with no __iter__; Proto is a
   Protocol class without @runtime_checkable; Bag and FrozenBag define
   __iter__ and have a metaclass whose instances are falsy *)
| c_object | c_type | c_int | c_str | c_tuple | c_list | c_dict
| c_Box | c_Proto | c_Bag | c_FrozenBag
(* hints: list[int], dict[int, int], Box[int], Required[int],
   FrozenBag[int], and two hints that name themselves:
   Nested = list[Nested], Bags = Bag[Bags] *)
| h_list_int | h_dict_int_int | h_Box_int | h_Required_int
| h_FrozenBag_int | h_Nested | h_Bags
(* objects: 1, 'x', two tuples (1,) built separately, [1], a list that
   contains itself, {1: 1}, Box(), a Bag that yields itself, a frozen
   bag holding 'x' *)
| o_one | o_x | o_tuple_a | o_tuple_b | o_list | o_self_list | o_dict
| o_box | o_bag | o_frozen_bag.

#[global] Instance tv_eq_dec : EqDecision tv.
Proof. solve_decision. Defined.

Definition all_values : list tv :=
  [t_None; t_NoneType; t_Protocol; t_Any; t_Ellipsis;
   t_Required; t_NotRequired; t_ReadOnly; t_Never;
   c_object; c_type; c_int; c_str; c_tuple; c_list; c_dict;
   c_Box; c_Proto; c_Bag; c_FrozenBag;
   h_list_int; h_dict_int_int; h_Box_int; h_Required_int;
   h_FrozenBag_int; h_Nested; h_Bags;
   o_one; o_x; o_tuple_a; o_tuple_b; o_list; o_self_list; o_dict;
   o_box; o_bag; o_frozen_bag].

Fixpoint index_of (v : tv) (l : list tv) : Z :=
  match l with
  | [] => 0
  | x :: l => if bool_decide (x = v) then 0 else 1 + index_of v l
  end.

Definition address (v : tv) : Z := 4096 + 16 * index_of v all_values.

Definition is_class (v : tv) : bool :=
  match v with
  | c_object | c_type | c_int | c_str | c_tuple | c_list | c_dict
  | c_Box | c_Proto | c_Bag | c_FrozenBag | t_NoneType => true
  | _ => false
  end.

Definition type (v : tv) : tv :=
  match v with
  | t_None => t_NoneType
  | o_one => c_int
  | o_x => c_str
  | o_tuple_a | o_tuple_b => c_tuple
  | o_list | o_self_list => c_list
  | o_dict => c_dict
  | o_box => c_Box
  | o_bag => c_Bag
  | o_frozen_bag => c_FrozenBag
  | _ => if is_class v then c_type else c_object
  end.

Definition eq (a b : tv) : bool :=
  match a, b with
  | o_tuple_a, o_tuple_b | o_tuple_b, o_tuple_a => true
  | _, _ => bool_decide (a = b)
  end.

Definition hash (v : tv) : Z :=
  match v with
  | o_tuple_b => address o_tuple_a / 16
  | _ => address v / 16
  end.

(** Lists and dicts have no hash. *)
Definition hashable (v : tv) : bool :=
  match v with
  | o_list | o_self_list | o_dict => false
  | _ => true
  end.

(** Classes, typing markers and subscripted hints have a [__name__];
    [None], [...] and the instances have none. *)
Definition has_name (v : tv) : bool :=
  match v with
  | t_None | t_Ellipsis
  | o_one | o_x | o_tuple_a | o_tuple_b | o_list | o_self_list | o_dict
  | o_box | o_bag | o_frozen_bag => false
  | _ => true
  end.

Definition hash_int (n : Z) : Z := n mod (2 ^ 61 - 1).

Definition hash_tuple (l : list Z) : Z :=
  fold_left (fun acc h => (acc * 1000003 + h) mod 2 ^ 64) l 3430008.

Definition truth (v : tv) : bool :=
  match v with
  | t_None | c_Bag | c_FrozenBag => false
  | _ => true
  end.

Definition isinstance (obj cls : tv) : option bool :=
  if is_class cls then
    Some (bool_decide (cls = c_object) || bool_decide (type obj = cls))
  else None.

Definition subclass_of (cls : tv) (abc : ABC) : bool :=
  match cls, abc with
  | c_dict, (Mapping | Collection | Iterable) => true
  | (c_list | c_tuple | c_str), (Sequence | Collection | Iterable) => true
  | (c_Bag | c_FrozenBag), Iterable => true
  | _, _ => false
  end.

Definition issubclass (cls : tv) (abc : ABC) : option bool :=
  if is_class cls then Some (subclass_of cls abc) else None.

Definition mro (v : tv) : option (list tv) :=
  match v with
  | c_object => Some [c_object]
  | c_Proto => Some [c_Proto; t_Protocol; c_object]
  | _ => if is_class v then Some [v; c_object] else None
  end.

Definition iter (v : tv) : option (list tv) :=
  match v with
  | o_x => Some [o_x]
  | o_tuple_a | o_tuple_b | o_list => Some [o_one]
  | o_self_list => Some [o_self_list]
  | o_dict => Some [o_one]
  | o_bag => Some [o_bag]
  | o_frozen_bag => Some [o_x]
  | _ => None
  end.

Definition immutable_value (v : tv) : bool :=
  match v with
  | t_None | o_one | o_x | o_tuple_a | o_tuple_b | o_frozen_bag => true
  | _ => false
  end.

#[global] Instance runtime : PyRuntime tv := {|
  py_id := address;
  py_type := type;
  py_eq := eq;
  py_hashable := hashable;
  py_hash := hash;
  py_hash_int := hash_int;
  py_hash_tuple := hash_tuple;
  py_bool := truth;
  py_isinstance := isinstance;
  py_issubclass := issubclass;
  py_is_class := is_class;
  py_mro := mro;
  py_is_runtime_protocol := fun _ => false;
  py_orig_class_args := fun _ => None;
  py_origin_attr := fun _ => None;
  py_args_attr := fun _ => None;
  py_has_iter := fun v => bool_decide (is_Some (iter v));
  py_has_name := has_name;
  py_iter := iter;
  py_iter_end := fun _ => Exhausted;
  is_immutable := immutable_value;
  py_None := t_None;
  py_NoneType := t_NoneType;
  py_Protocol := t_Protocol;
  py_Any := t_Any;
  py_Ellipsis := t_Ellipsis;
  Required := t_Required;
  NotRequired := t_NotRequired;
  ReadOnly := t_ReadOnly;
  Never := t_Never
|}.

Definition get_origin (h : tv) : option tv :=
  match h with
  | h_list_int | h_Nested => Some c_list
  | h_dict_int_int => Some c_dict
  | h_Box_int => Some c_Box
  | h_Required_int => Some t_Required
  | h_FrozenBag_int => Some c_FrozenBag
  | h_Bags => Some c_Bag
  | _ => None
  end.

Definition get_args (h : tv) : list tv :=
  match h with
  | h_list_int | h_Box_int | h_Required_int | h_FrozenBag_int => [c_int]
  | h_dict_int_int => [c_int; c_int]
  | h_Nested => [h_Nested]
  | h_Bags => [h_Bags]
  | _ => []
  end.

(** The matchers of the toy runtime: the shape is the [isinstance] test
    against the origin; a mapping checks its keys against the first
    argument, the other containers their items. *)
Definition shape_ok (kind : ABC) (obj : tv) (args : list tv) : bool :=
  match kind with
  | Callable => false
  | _ => bool_decide (is_Some (iter obj))
  end.

Definition nested_checks (kind : ABC) (obj : tv) (args : list tv)
    : list (tv * tv) :=
  match iter obj, args with
  | Some items, hint :: _ => (fun item => (item, hint)) <$> items
  | _, _ => []
  end.

Definition matcher_context (kind : ABC) : string :=
  match kind with
  | Mapping => "mapping_key"
  | Set_ => "set_item"
  | Sequence => "sequence_item"
  | Collection => "collection_item"
  | Iterable => "iterable_item"
  | Callable => "callable"
  end.

Definition check (n : nat) : @Check tv :=
  check_at get_origin get_args shape_ok nested_checks matcher_context
    (fun _ => NOT_IMMUTABLE) n.

Definition callees (n : nat) : @Callees tv :=
  callees_of shape_ok nested_checks matcher_context (check n).

Definition options : Options tv := mkOptions [].

(** The context of a top-level call: the empty string, the default of the
    [context] parameter. *)
Definition top_context : string := EmptyString.

(** An empty cache and one empty set object, number 0. *)
Definition s0 : State tv := {| cache := []; sets := [[]] |}.

(** The call [_check_generic(obj, hint, get_origin(hint), get_args(hint),
    options, parents=set(), raise_on_error)] from [s0], the callees having
    depth [n]. *)
Definition generic (n : nat) (obj hint : tv) (raise_on_error : bool) :=
  _check_generic (callees n) obj hint (get_origin hint) (get_args hint)
    options 0%nat raise_on_error top_context s0.

(** The same runtime without falsy classes, and the hints whose origin
    is a container class: every resolved origin reaches a structural
    matcher. *)
Definition runtime_truthy : PyRuntime tv := {|
  py_id := address;
  py_type := type;
  py_eq := eq;
  py_hashable := hashable;
  py_hash := hash;
  py_hash_int := hash_int;
  py_hash_tuple := hash_tuple;
  py_bool := fun _ => true;
  py_isinstance := isinstance;
  py_issubclass := issubclass;
  py_is_class := is_class;
  py_mro := mro;
  py_is_runtime_protocol := fun _ => false;
  py_orig_class_args := fun _ => None;
  py_origin_attr := fun _ => None;
  py_args_attr := fun _ => None;
  py_has_iter := fun v => bool_decide (is_Some (iter v));
  py_has_name := has_name;
  py_iter := iter;
  py_iter_end := fun _ => Exhausted;
  is_immutable := immutable_value;
  py_None := t_None;
  py_NoneType := t_NoneType;
  py_Protocol := t_Protocol;
  py_Any := t_Any;
  py_Ellipsis := t_Ellipsis;
  Required := t_Required;
  NotRequired := t_NotRequired;
  ReadOnly := t_ReadOnly;
  Never := t_Never
|}.

Definition get_origin_of_container (h : tv) : option tv :=
  match h with
  | h_Box_int | h_Required_int => None
  | _ => get_origin h
  end.

Definition check_truthy (n : nat) : @Check tv :=
  @check_at tv runtime_truthy get_origin_of_container get_args shape_ok
    nested_checks matcher_context (fun _ => NOT_IMMUTABLE) n.

(** A state whose cache holds the verdict "invalid" for (int, id(1)). *)
Definition s_hit : State tv :=
  {| cache := [(CacheKey__init__ c_int o_one, false)]; sets := [[]] |}.
End Toy.

(** ** Reading a call of [_check_generic] and its trace *)

Section GenericReading.
Context {value : Type} `{!PyRuntime value}.
Variable callees : @Callees value.

(** The call of the structural matcher of a kind, as lines 168-185 make
    it, and the set it is given: the callable matcher takes none. *)
Definition matcher_call (kind : ABC) (obj type_hint origin : value)
    (args : list value) (options : Options value) (new_parents : nat)
    (raise_on_error : bool) : @Call value :=
  match kind with
  | Mapping =>
      _check_collections_abc_mapping callees obj type_hint origin args options
        new_parents raise_on_error
  | Set_ =>
      _check_collections_abc_set callees obj type_hint origin args options
        new_parents raise_on_error
  | Sequence =>
      _check_collections_abc_sequence callees obj type_hint origin args options
        new_parents raise_on_error
  | Collection =>
      _check_collections_abc_collection callees obj type_hint origin args
        options new_parents raise_on_error
  | Iterable =>
      _check_collections_abc_iterable callees obj type_hint origin args options
        new_parents raise_on_error
  | Callable =>
      _check_collections_abc_callable callees obj type_hint origin args
        raise_on_error
  end.

Definition matcher_parents (kind : ABC) (new_parents : nat) : option nat :=
  match kind with
  | Callable => None
  | _ => Some new_parents
  end.

(** The state after lines 152-153: one more set object, holding the
    elements of [parents] and the token. *)
Definition with_new_parents (s : State value) (parents : nat)
    (token : ValidationState value) : State value :=
  {| cache := cache s;
     sets := sets s ++ [set_added (set_at s parents) token] |}.

(** What came back from the call an event records. *)
Definition event_result (e : Event value) : option (Outcome CheckResult) :=
  match e with
  | EvCacheAdd _ _ _ _ => None
  | EvMatcher _ _ _ res => Some res
  | EvCheck _ _ _ _ _ res => Some res
  end.

(** The results of the nested checks of a trace, in order. *)
Fixpoint check_results (t : list (Event value)) : list (Outcome CheckResult) :=
  match t with
  | [] => []
  | EvCheck _ _ _ _ _ res :: t => res :: check_results t
  | _ :: t => check_results t
  end.

(** [o] is the failure [res], when [res] is one: the same exception, or
    no return at all. *)
Definition same_failure {A} (res : Outcome CheckResult) (o : Outcome A) : Prop :=
  match res with
  | Ret _ => True
  | Raise e => o = Raise e
  | Diverge => o = Diverge
  end.

(** Every result but the last is a valid one. *)
Fixpoint all_but_last_valid (l : list (Outcome CheckResult)) : bool :=
  match l with
  | [] => true
  | res :: l' =>
      match l' with
      | [] => true
      | _ :: _ =>
          match res with
          | Ret r => valid r
          | _ => false
          end && all_but_last_valid l'
      end
  end.

(** Every result is a valid one. *)
Definition all_valid (l : list (Outcome CheckResult)) : bool :=
  forallb (fun res => match res with Ret r => valid r | _ => false end) l.

(** What the loops of the fallback leave in the trace. *)
Definition loop_trace (parents : nat) (label : string) (raise_on_error : bool)
    : Outcome (CheckResult + bool) -> State value -> list (Event value) -> Prop :=
  fun o _ t =>
    Forall (is_check_on parents label) t /\
    all_but_last_valid (check_results t) = true /\
    (forall ev res, In ev t -> event_result ev = Some res -> same_failure res o) /\
    match o with
    | Ret (inr _) => all_valid (check_results t) = true
    | Ret (inl r) =>
        r = mkCheckResult NOT_VALID NOT_IMMUTABLE /\ raise_on_error = false /\
        all_valid (check_results t) = false
    | _ => True
    end.

(** A property of the cache that every callee keeps: the matchers and
    [_check_instance_of_typehint], whatever they are called with. *)
Definition callees_keep (P : Cache value -> Prop) : Prop :=
  (forall kind obj h o args opts p raise_on_error s out s',
     P (cache s) ->
     matcher_call kind obj h o args opts p raise_on_error s = (out, s') ->
     P (cache s')) /\
  (forall item h opts p raise_on_error ctx s out s',
     P (cache s) ->
     _check_instance_of_typehint callees item h opts p raise_on_error ctx s
       = (out, s') ->
     P (cache s')).







(** Lines 92, 96 and 100: the arguments given to a bare class. *)
Definition bare_args (kind : ABC) : list value :=
  match kind with
  | Mapping => [py_Any; py_Any]
  | Callable => [py_Ellipsis; py_Any]
  | _ => [py_Any]
  end.

(** Line 153: the token of a call. *)
Definition token_of (obj type_hint : value) (context : string)
    : ValidationState value :=
  mkValidationState (py_id obj) type_hint context.
End GenericReading.

(** ** More of the small runtime *)

Module ToyMore.
Import Toy.

(** The runtime of [Toy] where the object [Box()] was made as
    [Box[int, str]()]: its [__orig_class__] records two arguments. *)
Definition runtime_orig : PyRuntime tv := {|
  py_id := address;
  py_type := type;
  py_eq := eq;
  py_hashable := hashable;
  py_hash := hash;
  py_hash_int := hash_int;
  py_hash_tuple := hash_tuple;
  py_bool := truth;
  py_isinstance := isinstance;
  py_issubclass := issubclass;
  py_is_class := is_class;
  py_mro := mro;
  py_is_runtime_protocol := fun _ => false;
  py_orig_class_args :=
    fun v => match v with o_box => Some [c_int; c_str] | _ => None end;
  py_origin_attr := fun _ => None;
  py_args_attr := fun _ => None;
  py_has_iter := fun v => bool_decide (is_Some (iter v));
  py_has_name := has_name;
  py_iter := iter;
  py_iter_end := fun _ => Exhausted;
  is_immutable := immutable_value;
  py_None := t_None;
  py_NoneType := t_NoneType;
  py_Protocol := t_Protocol;
  py_Any := t_Any;
  py_Ellipsis := t_Ellipsis;
  Required := t_Required;
  NotRequired := t_NotRequired;
  ReadOnly := t_ReadOnly;
  Never := t_Never
|}.

(** Callees that look at nothing and leave the state as it is. *)
Definition idle : @Call tv :=
  fun s => (Ret (mkCheckResult IS_VALID NOT_IMMUTABLE), s).

Definition idle_callees : @Callees tv := {|
  _check_collections_abc_mapping := fun _ _ _ _ _ _ _ => idle;
  _check_collections_abc_set := fun _ _ _ _ _ _ _ => idle;
  _check_collections_abc_sequence := fun _ _ _ _ _ _ _ => idle;
  _check_collections_abc_collection := fun _ _ _ _ _ _ _ => idle;
  _check_collections_abc_iterable := fun _ _ _ _ _ _ _ => idle;
  _check_collections_abc_callable := fun _ _ _ _ _ => idle;
  _check_instance_of_typehint := fun _ _ _ _ _ _ => idle
|}.

(** A cache that holds no verdict "invalid". *)
Definition only_valid_verdicts (c : Cache tv) : Prop :=
  Forall (fun e => snd e = true) c.

(** The two equal tuples have one representative; every other value is
    its own. *)
Definition representative (v : tv) : tv :=
  match v with
  | o_tuple_b => o_tuple_a
  | _ => v
  end.
End ToyMore.

(** * Properties *)

(** ** Cache keys *)

Section CacheKeyFacts.
Context {value : Type} `{!PyRuntime value}.

Lemma CacheKey__eq__spec (k1 k2 : CacheKey value) :
  CacheKey__eq__ k1 k2 = true <->
  py_item_eq (obj_type k1) (obj_type k2) = true /\
  instance_id k1 = instance_id k2.
Proof.
  unfold CacheKey__eq__. cbn [py_tuple_eq].
  destruct (py_item_eq (obj_type k1) (obj_type k2)).
  - destruct (Z.eqb_spec (instance_id k1) (instance_id k2)); intuition congruence.
  - intuition congruence.
Qed.

Lemma find_filter_same {A} (P Q : A -> bool) (l : list A) :
  (forall x, P x = true -> Q x = true) ->
  List.find P (List.filter Q l) = List.find P l.
Proof.
  intros HPQ. induction l as [| x l IH]; [reflexivity |]. cbn.
  destruct (Q x) eqn:HQ; cbn.
  - now rewrite IH.
  - destruct (P x) eqn:HP; [| exact IH].
    rewrite (HPQ _ HP) in HQ. discriminate.
Qed.

(** A key made for another object does not answer a probe. *)
Lemma dict_key_match_other_id (k1 k2 : CacheKey value) :
  instance_id k1 <> instance_id k2 -> dict_key_match k1 k2 = false.
Proof.
  intros Hne. unfold dict_key_match.
  destruct (CacheKey__eq__ k1 k2) eqn:E; [| apply andb_false_r].
  apply CacheKey__eq__spec in E. tauto.
Qed.

(** C9.  Two cache keys are equal exactly when their stored types are
    equal (the same object, or [==]) and their stored instance ids are
    equal, and equal keys have equal hashes (given that [hash] agrees
    with equality on the types, as Python requires).  So two objects
    with different ids, equal or not, get unequal keys for the same
    type hint, and a cache entry written for one is not seen by a
    lookup for the other. *)
Theorem cache_key_equality_is_type_and_identity (k1 k2 : CacheKey value) :
  (forall a b : value, py_item_eq a b = true -> py_hash a = py_hash b) ->
  (CacheKey__eq__ k1 k2 = true <->
   py_item_eq (obj_type k1) (obj_type k2) = true /\
   instance_id k1 = instance_id k2) /\
  (CacheKey__eq__ k1 k2 = true -> CacheKey__hash__ k1 = CacheKey__hash__ k2) /\
  (forall type_hint a b,
     py_id a <> py_id b ->
     CacheKey__eq__ (CacheKey__init__ type_hint a) (CacheKey__init__ type_hint b)
     = false /\
     forall v noncachable c,
       valid_in_cache type_hint b (add_cache_entry type_hint a v noncachable c)
       = valid_in_cache type_hint b c).
Proof.
  intros Hhash. split; [apply CacheKey__eq__spec | split].
  - intros [Ht Hi]%CacheKey__eq__spec. unfold CacheKey__hash__.
    now rewrite (Hhash _ _ Ht), Hi.
  - intros type_hint a b Hne. split.
    + destruct (CacheKey__eq__ _ _) eqn:E; [| reflexivity].
      apply CacheKey__eq__spec in E. cbn in E. tauto.
    + intros v noncachable c. unfold valid_in_cache, add_cache_entry.
      destruct (is_noncachable a noncachable); [reflexivity |].
      unfold cache_store, cache_lookup. cbn [List.find fst].
      rewrite dict_key_match_other_id by (cbn; congruence).
      rewrite find_filter_same; [reflexivity |].
      intros [k w] Hb. cbn [fst] in *.
      destruct (dict_key_match (CacheKey__init__ type_hint a) k) eqn:Ha;
        [| reflexivity].
      unfold dict_key_match in Ha, Hb.
      apply andb_true_iff in Ha as [_ Ha%CacheKey__eq__spec].
      apply andb_true_iff in Hb as [_ Hb%CacheKey__eq__spec].
      cbn in Ha, Hb. exfalso. apply Hne. destruct Ha, Hb. congruence.
Qed.
End CacheKeyFacts.

Section PostRules.
Context {value : Type} `{!PyRuntime value}.
Variable callees : @Callees value.
Implicit Types (s : State value).

(** ** Rules for [post] *)

Lemma post_bind {A B} (m : M value A) (k : A -> M value B) s Q :
  post m s (fun o s1 t1 =>
    match o with
    | Ret a => post (k a) s1 (fun o2 s2 t2 => Q o2 s2 (t1 ++ t2))
    | Raise e => Q (Raise e) s1 t1
    | Diverge => Q Diverge s1 t1
    end) ->
  post (bind m k) s Q.
Proof.
  unfold post, bind. destruct (m s) as [[[a | e |] s1] t1]; auto.
  destruct (k a s1) as [[o2 s2] t2]. auto.
Qed.

Lemma post_ret {A} (a : A) s Q : Q (Ret a) s [] -> post (ret a) s Q.
Proof. auto. Qed.

Lemma post_raise {A} e s (Q : Outcome A -> _) : Q (Raise e) s [] -> post (raise e) s Q.
Proof. auto. Qed.

Lemma post_pure {A} (o : Outcome A) s Q : Q o s [] -> post (pure o) s Q.
Proof. auto. Qed.

Lemma post_read_cache type_hint obj s Q :
  Q (Ret (valid_in_cache type_hint obj (cache s))) s [] ->
  post (read_cache type_hint obj) s Q.
Proof. auto. Qed.

Lemma post_write_cache type_hint obj v nc s Q :
  Q (Ret tt)
    {| cache := add_cache_entry type_hint obj v nc (cache s); sets := sets s |}
    [EvCacheAdd type_hint obj v nc] ->
  post (write_cache type_hint obj v nc) s Q.
Proof. auto. Qed.

Lemma post_set_copy parents s Q :
  Q (Ret (length (sets s)))
    {| cache := cache s; sets := sets s ++ [set_at s parents] |} [] ->
  post (set_copy parents) s Q.
Proof. auto. Qed.

Lemma post_set_add r token s Q :
  Q (Ret tt)
    {| cache := cache s;
       sets := <[r := set_added (set_at s r) token]> (sets s) |} [] ->
  post (set_add r token) s Q.
Proof. auto. Qed.

Lemma post_call_matcher kind p (f : Call) s Q :
  (forall o s', f s = (o, s') ->
     Q o s' [EvMatcher kind p (from_option (set_at s) [] p) o]) ->
  post (call_matcher kind p f) s Q.
Proof.
  unfold post, call_matcher. intros H. destruct (f s) as [o s'] eqn:E. auto.
Qed.

Lemma post_call_check item hint options parents raise_on_error context s Q :
  (forall o s',
     _check_instance_of_typehint callees item hint options parents
       raise_on_error context s = (o, s') ->
     Q o s' [EvCheck item hint parents (set_at s parents) context o]) ->
  post (call_check callees item hint options parents raise_on_error context) s Q.
Proof.
  unfold post, call_check. intros H.
  destruct (_check_instance_of_typehint _ _ _ _ _ _ _ s) as [o s'] eqn:E. auto.
Qed.

Lemma post_weaken {A} (m : M value A) s (Q Q' : Outcome A -> _) :
  post m s Q -> (forall o s' t, Q o s' t -> Q' o s' t) -> post m s Q'.
Proof. unfold post. destruct (m s) as [[o s'] t]. auto. Qed.



End PostRules.

(** One step of symbolic execution of the embedded code under [post]. *)
Ltac post_step :=
  lazy beta iota;
  lazymatch goal with
  | |- post (bind _ _) _ _ => apply post_bind
  | |- post (ret _) _ _ => apply post_ret
  | |- post (raise _) _ _ => apply post_raise
  | |- post (pure _) _ _ => apply post_pure
  | |- post (read_cache _ _) _ _ => apply post_read_cache
  | |- post (write_cache _ _ _ _) _ _ => apply post_write_cache
  | |- post (set_copy _) _ _ => apply post_set_copy
  | |- post (set_add _ _) _ _ => apply post_set_add
  | |- post (call_matcher _ _ _) _ _ =>
      apply post_call_matcher; let o := fresh "out" in intros [o | o |] ? ?
  | |- post (call_check _ _ _ _ _ _ _) _ _ =>
      apply post_call_check; let o := fresh "out" in intros [o | o |] ? ?
  | |- post (issubclass _ _) _ _ => unfold issubclass
  | |- post (if ?b then _ else _) _ _ => destruct b eqn:?
  | |- post (match ?x with _ => _ end) _ _ => destruct x eqn:?
  | |- match ?x with _ => _ end => destruct x eqn:?
  end.


Section GenericFacts.
Context {value : Type} `{!PyRuntime value}.
Variable callees : @Callees value.

Implicit Types (obj type_hint : value) (origin : option value)
  (args : list value) (options : Options value) (parents : nat)
  (raise_on_error : bool) (context : string) (s : State value).

(** ** Running the code up to the plain checks *)

Lemma bind_ret_l {A B} (a : A) (k : A -> M value B) s : bind (ret a) k s = k a s.
Proof. unfold bind, ret. now destruct (k a s) as [[? ?] ?]. Qed.

Lemma bind_pure_ret {A B} (a : A) (k : A -> M value B) s :
  bind (pure (Ret a)) k s = k a s.
Proof. apply bind_ret_l. Qed.

(** On a cache miss, for a hint that is no non-runtime Protocol,
    [_check_generic] is the plain checks run on the resolved origin. *)
Lemma _check_generic_miss
    obj type_hint origin args options parents raise_on_error context s o' args' :
  valid_in_cache type_hint obj (cache s) = None ->
  is_non_runtime_protocol type_hint = false ->
  resolve_origin type_hint origin args = Ret (o', args') ->
  _check_generic callees obj type_hint origin args options parents
    raise_on_error context s
  = check_resolved callees obj type_hint o' args' options parents
      raise_on_error context (is_immutable obj) s.
Proof.
  intros Hmiss Hproto Hres.
  unfold _check_generic.
  unfold bind at 1. unfold read_cache. rewrite Hmiss, Hproto, Hres.
  rewrite bind_pure_ret. cbn [fst snd].
  now destruct (check_resolved _ _ _ _ _ _ _ _ _ _ s) as [[? ?] ?].
Qed.

Lemma resolve_origin_some type_hint o args :
  resolve_origin type_hint (Some o) args = Ret (Some o, args).
Proof. reflexivity. Qed.

(** ** The set objects *)

Lemma sets_preserved_refl s : sets_preserved s s.
Proof. now intros r Hr. Qed.

Lemma sets_preserved_length s s' :
  sets_preserved s s' -> (length (sets s) <= length (sets s'))%nat.
Proof.
  intros H. destruct (sets s) as [| c l] eqn:E using rev_ind; [cbn; lia |].
  clear IHl. rewrite length_app. cbn.
  specialize (H (length l)). rewrite E, length_app in H. cbn in H.
  specialize (H ltac:(lia)).
  rewrite lookup_app_r, Nat.sub_diag in H by lia. cbn in H.
  apply lookup_lt_Some in H. lia.
Qed.

Lemma sets_preserved_trans s1 s2 s3 :
  sets_preserved s1 s2 -> sets_preserved s2 s3 -> sets_preserved s1 s3.
Proof.
  intros H12 H23 r Hr. rewrite <- (H12 r Hr). apply H23.
  pose proof (sets_preserved_length _ _ H12). lia.
Qed.

Lemma sets_preserved_set_at s s' r :
  sets_preserved s s' -> (r < length (sets s))%nat -> set_at s' r = set_at s r.
Proof. intros H Hr. unfold set_at. f_equal. exact (H r Hr). Qed.

(** ** The loops of the fallback *)

Lemma nested_flags_app (t1 t2 : list (Event value)) :
  nested_flags (t1 ++ t2) = nested_flags t1 ++ nested_flags t2.
Proof.
  induction t1 as [| e t1 IH]; [reflexivity |].
  destruct e as [| | ? ? ? ? ? [r | |]]; cbn; now rewrite ?IH.
Qed.

Lemma loop_post_step s s1 parents label imm raise_on_error item hint seen r o s' t :
  (callees_keep_sets callees -> sets_preserved s s1) ->
  valid r = true ->
  loop_post callees s1 parents label (imm && immutable r) raise_on_error o s' t ->
  loop_post callees s parents label imm raise_on_error o s'
    ([EvCheck item hint parents seen label (Ret r)] ++ t).
Proof.
  intros Hs Hv (Hkeep & Hall & Ho). split; [| split].
  - intros Hc. eapply sets_preserved_trans; eauto.
  - constructor; [| exact Hall]. now exists item, hint, seen, (Ret r).
  - destruct o as [[r' | imm'] | |]; auto.
    + destruct Ho as (-> & _ & ->). repeat split. discriminate.
    + cbn. rewrite Ho. now rewrite andb_assoc.
Qed.

Lemma loop_post_stop s s1 parents label imm raise_on_error item hint seen res o :
  (callees_keep_sets callees -> sets_preserved s s1) ->
  match o with
  | Ret (inl r) => r = mkCheckResult NOT_VALID NOT_IMMUTABLE /\ raise_on_error = false
  | Ret (inr _) => False
  | _ => True
  end ->
  loop_post callees s parents label imm raise_on_error o s1
    [EvCheck item hint parents seen label res].
Proof.
  intros Hs Ho. split; [exact Hs | split].
  - constructor; [| constructor]. now exists item, hint, seen, res.
  - destruct o as [[r' | imm'] | |]; auto.
    + destruct Ho as [-> ->]. repeat split. discriminate.
    + destruct Ho.
Qed.

Lemma check_parameters_post pairs options parents raise_on_error imm s :
  post (check_parameters callees pairs options parents raise_on_error imm) s
    (loop_post callees s parents "generic_parameter" imm raise_on_error).
Proof.
  revert imm s. induction pairs as [| [item hint] pairs IH]; intros imm s.
  - cbn. repeat split; auto using sets_preserved_refl.
    cbn. now rewrite andb_true_r.
  - cbn [check_parameters]. post_step. post_step.
    + destruct (valid out) eqn:Hv; cbn [negb]; lazy beta iota.
      * eapply post_weaken; [apply IH |]. intros o s1 t Hpost.
        eapply loop_post_step; eauto. intros Hc. eapply keep_check; eauto.
      * destruct raise_on_error; post_step; rewrite app_nil_r;
          apply loop_post_stop; auto; intros Hc; eapply keep_check; eauto.
    + apply loop_post_stop; auto; intros Hc; eapply keep_check; eauto.
    + apply loop_post_stop; auto; intros Hc; eapply keep_check; eauto.
Qed.

Lemma check_items_post items args options parents raise_on_error imm s :
  post (check_items callees items args options parents raise_on_error imm) s
    (loop_post callees s parents "generic_item" imm raise_on_error).
Proof.
  revert imm s. induction items as [| item items IH]; intros imm s.
  - cbn. repeat split; auto using sets_preserved_refl.
    cbn. now rewrite andb_true_r.
  - cbn [check_items]. destruct args as [| hint args].
    { repeat split; auto using sets_preserved_refl. }
    post_step. post_step.
    + destruct (valid out) eqn:Hv; cbn [negb]; lazy beta iota.
      * eapply post_weaken; [apply IH |]. intros o s1 t Hpost.
        eapply loop_post_step; eauto. intros Hc. eapply keep_check; eauto.
      * destruct raise_on_error; post_step; rewrite app_nil_r;
          apply loop_post_stop; auto; intros Hc; eapply keep_check; eauto.
    + apply loop_post_stop; auto; intros Hc; eapply keep_check; eauto.
    + apply loop_post_stop; auto; intros Hc; eapply keep_check; eauto.
Qed.

End GenericFacts.

(** Membership in a list spelled out as a disjunction. *)
Ltac find_in :=
  lazymatch goal with
  | |- _ \/ _ => first [left; find_in | right; find_in]
  | |- _ = _ => reflexivity
  end.

(** The loops under [post]: their result is [loop_post]. *)
Ltac post_loop H :=
  lazy beta iota;
  lazymatch goal with
  | |- post (check_parameters _ _ _ _ _ _) _ _ =>
      eapply post_weaken; [apply check_parameters_post |];
      intros [[? | ?] | ? |] ? ? H
  | |- post (check_items _ _ _ _ _ _ _) _ _ =>
      eapply post_weaken; [apply check_items_post |];
      intros [[? | ?] | ? |] ? ? H
  end.

Section GenericClaims.
Context {value : Type} `{!PyRuntime value}.
Variable callees : @Callees value.

Implicit Types (obj type_hint : value) (origin : option value)
  (args : list value) (options : Options value) (parents : nat)
  (raise_on_error : bool) (context : string) (s : State value).

(** ** The copy of the parents set (lines 152-153) *)

(** The state after [new_parents = parents.copy()] and
    [new_parents.add(token)]. *)
Lemma new_parents_state s parents (token : ValidationState value) :
  let s2 := {| cache := cache s;
               sets := <[length (sets s) :=
                          set_added
                            (set_at {| cache := cache s;
                                       sets := sets s ++ [set_at s parents] |}
                               (length (sets s))) token]>
                         (sets s ++ [set_at s parents]) |} in
  sets_preserved s s2 /\
  length (sets s2) = S (length (sets s)) /\
  set_at s2 (length (sets s)) = set_added (set_at s parents) token.
Proof.
  cbn. split; [| split].
  - intros r Hr. cbn.
    rewrite list_lookup_insert_ne by lia. now rewrite lookup_app_l.
  - rewrite length_insert, length_app. cbn. lia.
  - unfold set_at. cbn.
    rewrite list_lookup_insert_eq by (rewrite length_app; cbn; lia).
    cbn. now rewrite list_lookup_middle by reflexivity.
Qed.

Lemma sets_preserved_through_matcher s s2 s3 :
  sets_preserved s s2 ->
  length (sets s2) = S (length (sets s)) ->
  sets_preserved_except (length (sets s)) s2 s3 ->
  sets_preserved s s3.
Proof.
  intros H12 Hlen H23 r Hr. rewrite <- (H12 r Hr). apply H23; lia.
Qed.

Lemma sets_preserved_cache s s1 c :
  sets_preserved s s1 -> sets_preserved s {| cache := c; sets := sets s1 |}.
Proof. auto. Qed.

Lemma sets_preserved_after_matcher s s2 s3 :
  sets_preserved s s2 /\ length (sets s2) = S (length (sets s)) ->
  sets_preserved_except (length (sets s)) s2 s3 ->
  sets_preserved s s3.
Proof. intros [? ?] ?. eauto using sets_preserved_through_matcher. Qed.

Lemma sets_preserved_after_check s s2 s3 :
  sets_preserved s s2 /\ length (sets s2) = S (length (sets s)) ->
  sets_preserved s2 s3 ->
  sets_preserved s s3.
Proof. intros [? ?] ?. eauto using sets_preserved_trans. Qed.

Lemma no_matcher_in_checks parents label (t : list (Event value)) kind p seen res :
  Forall (is_check_on parents label) t -> ~ In (EvMatcher kind p seen res) t.
Proof.
  rewrite Forall_forall. intros Hall Hin. apply list_elem_of_In in Hin.
  destruct (Hall _ Hin) as (? & ? & ? & ? & ?). discriminate.
Qed.

(** The frame of [_check_generic]: the sets that exist before the call
    are untouched, and a matcher that takes a set gets the new one. *)
Lemma _check_generic_keeps_sets
    obj type_hint origin args options parents raise_on_error context s :
  callees_keep_sets callees ->
  post (_check_generic callees obj type_hint origin args options parents
          raise_on_error context) s
    (fun _ s' t =>
       sets_preserved s s' /\
       forall kind p seen res,
         In (EvMatcher kind (Some p) seen res) t ->
         p = length (sets s) /\
         seen = set_added (set_at s parents)
                  (mkValidationState (py_id obj) type_hint context)).
Proof.
  intros Hkeep.
  unfold _check_generic, check_resolved, check_structure, dispatch,
    fallback_parameters, parameters_done, fallback_items.
  repeat (post_step || post_loop ipattern:(Hloop)).
  all: cbn [cache sets] in *.
  all: pose proof (new_parents_state s parents
                     (mkValidationState (py_id obj) type_hint context))
         as (Hs2 & Hlen2 & Hat2);
       cbn zeta in Hs2, Hlen2, Hat2; cbn [cache sets] in Hs2, Hlen2, Hat2;
       pose proof (conj Hs2 Hlen2) as Hnew.
  all: try match goal with
       | H : loop_post _ _ _ _ _ _ _ _ _ |- _ =>
           destruct H as (Hk & Hall & _); specialize (Hk Hkeep)
       end.
  all: try match goal with
       | H : _ = (_, _) |- _ =>
           first [ eapply keep_mapping in H; [| exact Hkeep]
                 | eapply keep_set in H; [| exact Hkeep]
                 | eapply keep_sequence in H; [| exact Hkeep]
                 | eapply keep_collection in H; [| exact Hkeep]
                 | eapply keep_iterable in H; [| exact Hkeep]
                 | eapply keep_callable in H; [| exact Hkeep]
                 | eapply keep_check in H; [| exact Hkeep] ]
       end.
  all: split;
    [ eauto 6 using sets_preserved_refl, sets_preserved_cache,
        sets_preserved_after_matcher, sets_preserved_after_check
    | intros kind p seen res Hin;
      repeat (rewrite in_app_iff in Hin || cbn [In] in Hin);
      repeat match goal with
             | H : _ \/ _ |- _ => destruct H
             | H : False |- _ => destruct H
             | H : In (EvMatcher _ _ _ _) ?t, Hall : Forall _ ?t |- _ =>
                 destruct (no_matcher_in_checks _ _ _ _ _ _ _ Hall H)
             | H : EvMatcher _ _ _ _ = EvMatcher _ _ _ _ |- _ =>
                 injection H as <- <- <- <-
             | H : _ = EvMatcher _ _ _ _ |- _ => discriminate H
             end;
      try (split; [reflexivity | cbn [from_option]; exact Hat2]) ].
Qed.

(** C7.  [_check_generic] never changes the set object it is given as
    [parents], nor any other set object that exists when it is called:
    after it returns or raises, each of them has the elements it had.
    Every structural matcher it calls with a set is handed a new set
    object, made by the call, whose elements are those of [parents] with
    the token (id(obj), type_hint, context) added.  The callees are
    assumed to respect the same discipline ([callees_keep_sets]). *)
Theorem parents_set_never_mutated
    obj type_hint origin args options parents raise_on_error context s :
  callees_keep_sets callees ->
  (parents < length (sets s))%nat ->
  let '(outcome, s', trace) :=
    _check_generic callees obj type_hint origin args options parents
      raise_on_error context s in
  set_at s' parents = set_at s parents /\
  sets_preserved s s' /\
  forall kind p seen res,
    In (EvMatcher kind (Some p) seen res) trace ->
    p = length (sets s) /\ p <> parents /\
    seen = set_added (set_at s parents)
             (mkValidationState (py_id obj) type_hint context).
Proof.
  intros Hkeep Hp.
  pose proof (_check_generic_keeps_sets obj type_hint origin args options
                parents raise_on_error context s Hkeep) as Hpost.
  unfold post in Hpost.
  destruct (_check_generic _ _ _ _ _ _ _ _ _ s) as [[o s'] t].
  destruct Hpost as [Hs Hev]. split; [| split; [exact Hs |]].
  - now apply sets_preserved_set_at.
  - intros kind p seen res Hin. destruct (Hev _ _ _ _ Hin) as [-> ->].
    repeat split. lia.
Qed.

(** ** The cache writes (lines 107, 141, 189, 217, 237, 256) *)

Lemma no_cache_write_in_checks parents label (t : list (Event value)) h o v nc :
  Forall (is_check_on parents label) t -> ~ In (EvCacheAdd h o v nc) t.
Proof.
  rewrite Forall_forall. intros Hall Hin. apply list_elem_of_In in Hin.
  destruct (Hall _ Hin) as (? & ? & ? & ? & ?). discriminate.
Qed.

(** C1.  Every call of [add_cache_entry] that [_check_generic] makes is
    for its own (type_hint, obj), stores the verdict "valid", passes
    [options.noncachable_types], and is followed by the return of a
    result that is valid and immutable: no path writes an invalid
    verdict, and none writes for a result flagged mutable.  The
    immutable flag is the classification [is_immutable(obj)] (with the
    flags of the nested checks) unless a structural matcher produced the
    result, in which case it is the flag the matcher reported.  A write
    for an object whose type is in [noncachable_types] stores nothing. *)
Theorem cache_written_only_when_valid_and_immutable
    obj type_hint origin args options parents raise_on_error context s :
  let '(outcome, s', trace) :=
    _check_generic callees obj type_hint origin args options parents
      raise_on_error context s in
  (forall h o v nc,
     In (EvCacheAdd h o v nc) trace ->
     (h = type_hint /\ o = obj /\ v = IS_VALID /\
      nc = noncachable_types options) /\
     exists r,
       outcome = Ret r /\ valid r = true /\ immutable r = true /\
       (is_immutable obj = true \/
        exists kind p seen, In (EvMatcher kind p seen (Ret r)) trace)) /\
  (forall v c,
     is_noncachable obj (noncachable_types options) = true ->
     add_cache_entry type_hint obj v (noncachable_types options) c = c).
Proof.
  change (post (_check_generic callees obj type_hint origin args options
                  parents raise_on_error context) s
            (fun outcome s' trace =>
               (forall h o v nc,
                  In (EvCacheAdd h o v nc) trace ->
                  (h = type_hint /\ o = obj /\ v = IS_VALID /\
                   nc = noncachable_types options) /\
                  exists r,
                    outcome = Ret r /\ valid r = true /\ immutable r = true /\
                    (is_immutable obj = true \/
                     exists kind p seen,
                       In (EvMatcher kind p seen (Ret r)) trace)) /\
               (forall v c,
                  is_noncachable obj (noncachable_types options) = true ->
                  add_cache_entry type_hint obj v (noncachable_types options) c
                  = c))).
  unfold _check_generic, check_resolved, check_structure, dispatch,
    fallback_parameters, parameters_done, fallback_items.
  repeat (post_step || post_loop ipattern:(Hloop)).
  all: (split; [| intros ? ? Hnc; unfold add_cache_entry; now rewrite Hnc]).
  all: try match goal with
       | H : loop_post _ _ _ _ _ _ _ _ _ |- _ =>
           destruct H as (_ & Hall & Ho)
       end.
  all: intros hh oo vv ncc Hin;
    repeat (rewrite in_app_iff in Hin || cbn [In] in Hin);
    repeat match goal with
           | H : _ \/ _ |- _ => destruct H
           | H : False |- _ => destruct H
           | H : In (EvCacheAdd _ _ _ _) ?t, Hall : Forall _ ?t |- _ =>
               destruct (no_cache_write_in_checks _ _ _ _ _ _ _ Hall H)
           | H : EvCacheAdd _ _ _ _ = EvCacheAdd _ _ _ _ |- _ =>
               injection H as <- <- <- <-
           | H : _ = EvCacheAdd _ _ _ _ |- _ => discriminate H
           end.
  all: try match goal with out : CheckResult |- _ => destruct out as [[] []] end;
    cbn [valid immutable andb negb orb] in *; rewrite ?andb_false_r in *;
    try discriminate.
  all: (split; [repeat split |]).
  all: eexists; (split; [reflexivity |]);
    cbn [valid immutable]; (split; [reflexivity |]).
  all: try (split; [reflexivity |]).
  all: try (left; reflexivity).
  all: try (left; symmetry in Ho; apply andb_true_iff in Ho; tauto).
  all: try (right; do 3 eexists; repeat (rewrite in_app_iff || cbn [In]);
            find_in).
Qed.

(** ** The immutable flag of the result *)

Lemma checks_are_check_events parents label (t : list (Event value)) :
  Forall (is_check_on parents label) t -> t <> [] ->
  existsb is_check_event t = true.
Proof.
  intros Hall Hne. destruct t as [| e t]; [congruence |].
  apply Forall_cons in Hall as [(? & ? & ? & ? & ->) _]. reflexivity.
Qed.

(** C8, as the code has it.  When [_check_generic] returns a result [r]:
    - on a cache hit, its immutable flag is IS_IMMUTABLE;
    - on a cache miss, if a structural matcher was called, [r] is what
      the matcher returned, its immutable flag included;
    - otherwise, if [r] is valid, its immutable flag is
      [is_immutable(obj)] and the flags of all the nested checks;
    - otherwise [r] is invalid: its immutable flag is
      [is_immutable(obj)] when no nested check was made, and
      NOT_IMMUTABLE when the fallback made one. *)
Theorem immutable_flag_of_result
    obj type_hint origin args options parents raise_on_error context s :
  let '(outcome, s', trace) :=
    _check_generic callees obj type_hint origin args options parents
      raise_on_error context s in
  forall r, outcome = Ret r ->
    match valid_in_cache type_hint obj (cache s) with
    | Some _ => immutable r = IS_IMMUTABLE
    | None =>
        (forall kind p seen res,
           In (EvMatcher kind p seen res) trace -> res = Ret r) /\
        ((forall kind p seen res, ~ In (EvMatcher kind p seen res) trace) ->
         (valid r = true ->
          immutable r = is_immutable obj && forallb id (nested_flags trace)) /\
         (valid r = false ->
          immutable r = if existsb is_check_event trace
                        then NOT_IMMUTABLE else is_immutable obj))
    end.
Proof.
  change (post (_check_generic callees obj type_hint origin args options
                  parents raise_on_error context) s
            (fun outcome s' trace =>
               forall r, outcome = Ret r ->
                 match valid_in_cache type_hint obj (cache s) with
                 | Some _ => immutable r = IS_IMMUTABLE
                 | None =>
                     (forall kind p seen res,
                        In (EvMatcher kind p seen res) trace -> res = Ret r) /\
                     ((forall kind p seen res,
                         ~ In (EvMatcher kind p seen res) trace) ->
                      (valid r = true ->
                       immutable r
                       = is_immutable obj && forallb id (nested_flags trace)) /\
                      (valid r = false ->
                       immutable r = if existsb is_check_event trace
                                     then NOT_IMMUTABLE else is_immutable obj))
                 end)).
  unfold _check_generic, check_resolved, check_structure, dispatch,
    fallback_parameters, parameters_done, fallback_items.
  repeat (post_step || post_loop ipattern:(Hloop)).
  all: intros rr Hrr; try discriminate Hrr; injection Hrr as <-.
  all: try reflexivity.
  all: try match goal with
       | H : loop_post _ _ _ _ _ _ _ _ _ |- _ =>
           destruct H as (_ & Hall & Ho)
       end.
  all: split;
    [ intros kind p seen res Hin;
      repeat (rewrite in_app_iff in Hin || cbn [In] in Hin);
      repeat match goal with
             | H : _ \/ _ |- _ => destruct H
             | H : False |- _ => destruct H
             | H : In (EvMatcher _ _ _ _) ?t, Hall : Forall _ ?t |- _ =>
                 destruct (no_matcher_in_checks _ _ _ _ _ _ _ Hall H)
             | H : EvMatcher _ _ _ _ = EvMatcher _ _ _ _ |- _ =>
                 injection H as <- <- <- <-
             | H : _ = EvMatcher _ _ _ _ |- _ => discriminate H
             end;
      try reflexivity
    | intros Hno ].
  all: try (exfalso; eapply Hno; repeat (rewrite in_app_iff || cbn [In]);
            find_in).
  all: rewrite ?nested_flags_app, ?existsb_app;
    cbn [nested_flags existsb is_check_event app forallb valid immutable
         orb andb id];
    rewrite ?app_nil_r.
  all: try (destruct Ho as (-> & Hne & _);
            rewrite (checks_are_check_events _ _ _ Hall Hne)).
  all: split; intros Hv; try discriminate Hv;
    cbn [valid immutable andb orb]; rewrite ?andb_true_r;
    try reflexivity; try assumption.
Qed.

(** ** Coming back *)

Lemma reaches_matchers_some_branch o :
  reaches_matchers o = true ->
  py_issubclass o Iterable = Some false ->
  py_issubclass o Callable = Some false -> False.
Proof.
  unfold reaches_matchers, is_collections_abc. intros H Hi Hc.
  rewrite Hi, Hc in H. now destruct (py_bool o).
Qed.

Lemma resolve_origin_comes_back type_hint origin args :
  resolve_origin type_hint origin args <> Diverge.
Proof.
  unfold resolve_origin.
  repeat match goal with
         | |- context [match ?x with _ => _ end] => destruct x
         end; discriminate.
Qed.

(** When every resolved origin reaches the structural matchers and the
    matchers come back, so does [_check_generic]. *)
Lemma _check_generic_comes_back
    obj type_hint origin args options parents raise_on_error context s :
  (forall o args',
     resolve_origin type_hint origin args = Ret (Some o, args') ->
     reaches_matchers o = true) ->
  matchers_come_back callees obj type_hint options raise_on_error
    (length (sets s))
    (set_added (set_at s parents)
       (mkValidationState (py_id obj) type_hint context)) ->
  post (_check_generic callees obj type_hint origin args options parents
          raise_on_error context) s
    (fun out _ _ => out <> Diverge).
Proof.
  intros Hroute Hback.
  unfold _check_generic, check_resolved, check_structure, dispatch.
  repeat post_step;
  try discriminate;
  cbn [cache sets] in *;
  pose proof (new_parents_state s parents
                (mkValidationState (py_id obj) type_hint context))
    as (Hs2 & Hlen2 & Hat2);
  cbn zeta in Hs2, Hlen2, Hat2; cbn [cache sets] in Hs2, Hlen2, Hat2;
  pose proof (eq_ind_r (fun n => (length (sets s) < n)%nat)
                (Nat.lt_succ_diag_r _) Hlen2) as Hlt;
  try match goal with
      | H : _check_collections_abc_callable callees obj type_hint ?o ?a
              raise_on_error ?s2 = (Diverge, ?s3) |- _ =>
          destruct (Hback s2 o a Diverge s3 Hat2 Hlt)
            as (H1 & H2 & H3 & H4 & H5 & H6);
          destruct (H6 H eq_refl)
      | H : _ callees obj type_hint ?o ?a options _ raise_on_error ?s2
            = (Diverge, ?s3) |- _ =>
          destruct (Hback s2 o a Diverge s3 Hat2 Hlt)
            as (H1 & H2 & H3 & H4 & H5 & H6);
          first [ destruct (H1 H eq_refl) | destruct (H2 H eq_refl)
                | destruct (H3 H eq_refl) | destruct (H4 H eq_refl)
                | destruct (H5 H eq_refl) ]
      end;
  try match goal with
      | H1 : fst ?a = Some _ |- _ =>
          destruct a as [oo aa]; cbn [fst snd] in *; subst oo;
          specialize (Hroute _ _ eq_refl)
      end;
  try (exfalso; eapply reaches_matchers_some_branch; eassumption);
  unfold reaches_matchers in *;
  repeat match goal with
         | H : ?b = _, H' : context [?b] |- _ => rewrite H in H'
         end; try discriminate;
  try (exfalso; eapply resolve_origin_comes_back; eassumption).
Qed.
End GenericClaims.

Section MoreClaims.
Context {value : Type} `{!PyRuntime value}.
Variable callees : @Callees value.

Implicit Types (obj type_hint : value) (origin : option value)
  (args : list value) (options : Options value) (parents : nat)
  (raise_on_error : bool) (context : string) (s : State value).

(** ** The cache probe (lines 64-74) *)

(** C6.  When the cache holds a verdict [v] for (type_hint, id(obj)),
    [_check_generic] returns [CheckResult(v, IS_IMMUTABLE)] at once: the
    state is left as it was and no matcher, nested check or cache write
    is made.  The one exception: it raises the typed error tagged
    TYPE_HINT_MISMATCH, and it does so exactly when [v] is false and
    [raise_on_error] is true. *)
Theorem cache_hit_returns_cached_verdict
    obj type_hint origin args options parents raise_on_error context s v :
  valid_in_cache type_hint obj (cache s) = Some v ->
  let '(outcome, s', trace) :=
    _check_generic callees obj type_hint origin args options parents
      raise_on_error context s in
  s' = s /\ trace = [] /\
  (v = false /\ raise_on_error = true ->
     outcome = Raise (TypeCheckedTypeError MsgNotInstanceOfTypeHint
                        TYPE_HINT_MISMATCH)) /\
  (~ (v = false /\ raise_on_error = true) ->
     outcome = Ret (mkCheckResult v IS_IMMUTABLE)).
Proof.
  intros Hhit.
  unfold _check_generic, bind, read_cache. rewrite Hhit.
  destruct v, raise_on_error; cbn; repeat split; try tauto;
    intros []; congruence.
Qed.

(** ** Protocol classes that are not runtime checkable (lines 78-86) *)

(** C5.  For a hint whose [__mro__] contains [Protocol] and that is not
    marked runtime checkable, [_check_generic] calls no structural
    matcher, makes no nested check and no cache write, and leaves the
    state as it was.  Past the cache probe (a cache miss) it raises the
    typed error tagged NON_RUNTIME_CHECKABLE_PROTOCOL when
    [raise_on_error] is true, and returns
    [CheckResult(NOT_VALID, is_immutable(obj))] when it is false. *)
Theorem non_runtime_protocol_rejected
    obj type_hint origin args options parents raise_on_error context s :
  is_non_runtime_protocol type_hint = true ->
  let '(outcome, s', trace) :=
    _check_generic callees obj type_hint origin args options parents
      raise_on_error context s in
  trace = [] /\ s' = s /\
  (valid_in_cache type_hint obj (cache s) = None ->
   outcome = if raise_on_error
             then Raise (TypeCheckedTypeError MsgProtocolNotRuntime
                           NON_RUNTIME_CHECKABLE_PROTOCOL)
             else Ret (mkCheckResult NOT_VALID (is_immutable obj))).
Proof.
  intros Hproto.
  unfold _check_generic, bind, read_cache. rewrite Hproto.
  destruct (valid_in_cache type_hint obj (cache s)) as [v |].
  - destruct (v || negb raise_on_error); cbn; repeat split; discriminate.
  - destruct raise_on_error; cbn; auto.
Qed.

(** ** Pseudo-origins (lines 117-135) *)

(** The membership test of line 129 answers [True] only for an origin
    it could hash. *)
Lemma pseudo_origin_is_hashable o :
  is_pseudo_origin o = true -> py_hashable o = true.
Proof. unfold is_pseudo_origin. now intros [Hh _]%andb_true_iff. Qed.

(** C3, as the code has it.  On a cache miss, for a hint that is not a
    non-runtime Protocol, when the origin is one of Required,
    NotRequired, ReadOnly, Never and [isinstance(obj, origin)] raises
    TypeError (as Python does for these markers), [_check_generic]
    raises the typed error whatever [raise_on_error] is; its tag is
    VALIDATION_FAILED, with the message of line 131. *)
Theorem pseudo_origin_always_raises_validation_failed
    obj type_hint o args options parents raise_on_error context s :
  valid_in_cache type_hint obj (cache s) = None ->
  is_non_runtime_protocol type_hint = false ->
  is_pseudo_origin o = true ->
  py_isinstance obj o = None ->
  _check_generic callees obj type_hint (Some o) args options parents
    raise_on_error context s
  = (Raise (TypeCheckedTypeError MsgOutsideTypedDict VALIDATION_FAILED), s, []).
Proof.
  intros Hmiss Hproto Hpseudo Hinst.
  rewrite (_check_generic_miss callees _ _ _ _ _ _ _ _ _ (Some o) args Hmiss Hproto
             (resolve_origin_some _ _ _)).
  unfold check_resolved.
  rewrite Hinst, (pseudo_origin_is_hashable _ Hpseudo), Hpseudo. reflexivity.
Qed.

(** ** The dispatch (lines 155-185) *)

(** C4, as the code has it.  When the call gets to the dispatch (cache
    miss, hint no non-runtime Protocol, [obj] an instance of the
    resolved origin, non-empty args) and the origin is truthy, as line
    155 asks ([if origin:]), and is a class that satisfies one
    of the six protocols, exactly one structural matcher is called: the
    first, in the order mapping, set, sequence, collection, iterable,
    callable, whose protocol the origin satisfies.  In particular an
    origin that is a Mapping goes to the mapping matcher.  The
    subclass relation of [collections.abc] is assumed: a Mapping, Set,
    Sequence or Collection is an Iterable. *)
Theorem dispatch_runs_most_specific_matcher
    obj type_hint origin args options parents raise_on_error context s o args' :
  valid_in_cache type_hint obj (cache s) = None ->
  is_non_runtime_protocol type_hint = false ->
  resolve_origin type_hint origin args = Ret (Some o, args') ->
  args' <> [] ->
  py_isinstance obj o = Some true ->
  py_bool o = true ->
  (forall abc, py_issubclass o abc <> None) ->
  (forall abc, In abc [Mapping; Set_; Sequence; Collection] ->
               py_issubclass o abc = Some true ->
               py_issubclass o Iterable = Some true) ->
  (exists abc, py_issubclass o abc = Some true) ->
  let '(outcome, s', trace) :=
    _check_generic callees obj type_hint origin args options parents
      raise_on_error context s in
  exists kind,
    most_specific o = Some kind /\
    (py_issubclass o Mapping = Some true -> kind = Mapping) /\
    exists new_parents seen res,
      filter is_matcher_event trace = [EvMatcher kind new_parents seen res].
Proof.
  intros Hmiss Hproto Hres Hargs Hinst Hbool Hclass Hclosed [abc0 Hsat].
  rewrite (_check_generic_miss callees _ _ _ _ _ _ _ _ _ _ _ Hmiss Hproto Hres).
  unfold check_resolved. rewrite Hinst.
  destruct args' as [| a0 args0]; [congruence |].
  assert (Habc : is_collections_abc o = true).
  { unfold is_collections_abc.
    destruct (py_issubclass o Iterable) as [[] |] eqn:Hi; [reflexivity | |].
    - destruct abc0.
      1-4: (assert (Some false = Some true) as Habs
              by (eapply Hclosed; [| exact Hsat]; cbn; tauto);
            discriminate Habs).
      + congruence.
      + now rewrite Hsat.
    - now apply Hclass in Hi. }
  unfold check_structure, dispatch, most_specific, specificity_order, satisfies.
  rewrite Hbool, Habc. unfold issubclass.
  pose proof (Hclass Mapping). pose proof (Hclass Set_).
  pose proof (Hclass Sequence). pose proof (Hclass Collection).
  pose proof (Hclass Iterable). pose proof (Hclass Callable).
  unfold bind, set_copy, set_add, ret, raise, call_matcher, write_cache.
  cbn [List.find].
  destruct (py_issubclass o Mapping) as [[] |] eqn:HM; [| | congruence];
  [| destruct (py_issubclass o Set_) as [[] |] eqn:HS; [| | congruence];
   [| destruct (py_issubclass o Sequence) as [[] |] eqn:HQ; [| | congruence];
    [| destruct (py_issubclass o Collection) as [[] |] eqn:HC; [| | congruence];
     [| destruct (py_issubclass o Iterable) as [[] |] eqn:HI; [| | congruence];
      [| destruct (py_issubclass o Callable) as [[] |] eqn:HL; [| | congruence];
       [| exfalso; destruct abc0; congruence ]]]]]];
  repeat (rewrite bool_decide_eq_true_2 by reflexivity
          || rewrite bool_decide_eq_false_2 by discriminate);
  match goal with
  | |- context [?f callees obj type_hint o ?a options ?p raise_on_error ?st] =>
      destruct (f callees obj type_hint o a options p raise_on_error st)
        as [[r | e |] s1]
  | |- context [_check_collections_abc_callable callees obj type_hint o ?a
                  raise_on_error ?st] =>
      destruct (_check_collections_abc_callable callees obj type_hint o a
                  raise_on_error st) as [[r | e |] s1]
  end;
  try (destruct r as [[] []], raise_on_error);
  cbn; eexists; (split; [reflexivity |]); (split; [congruence |]);
  do 3 eexists; reflexivity.
Qed.

(** ** The fallback for user-defined generics (lines 196-262) *)

Lemma dispatch_not_reached obj type_hint o args options new_parents
    raise_on_error s :
  reaches_matchers o = false ->
  dispatch callees obj type_hint o args options new_parents raise_on_error s
  = (Ret None, s, []).
Proof.
  unfold reaches_matchers, dispatch. intros Hno.
  destruct (py_bool o); [| reflexivity].
  cbn in Hno. now rewrite Hno.
Qed.

Lemma fallback_parameters_none obj type_hint o args options parents
    raise_on_error imm s :
  py_orig_class_args obj = None ->
  type_records_parameters obj o args = false ->
  fallback_parameters callees obj type_hint o args options parents
    raise_on_error imm s
  = (Ret (inr tt), s, []).
Proof.
  unfold fallback_parameters, type_records_parameters. intros -> Hno.
  destruct (py_origin_attr (py_type obj)); [| reflexivity].
  destruct (py_args_attr (py_type obj)); [| reflexivity].
  now rewrite Hno.
Qed.

(** C10.  On a cache miss, for a hint that is no non-runtime Protocol:
    when [obj] is an instance of the resolved origin, the origin does not
    reach a structural matcher, [obj] has no [__orig_class__], its type
    records no matching origin/args pair, and [obj] has no [__iter__],
    [_check_generic] returns [CheckResult(IS_VALID, is_immutable(obj))]
    whatever [raise_on_error] is, and the only thing it does on the way
    is the cache write for an immutable [obj]: no matcher is called and
    nothing is compared with the arguments of the hint. *)
Theorem fallback_accepts_vacuously
    obj type_hint origin args options parents raise_on_error context s o args' :
  valid_in_cache type_hint obj (cache s) = None ->
  is_non_runtime_protocol type_hint = false ->
  resolve_origin type_hint origin args = Ret (Some o, args') ->
  py_isinstance obj o = Some true ->
  reaches_matchers o = false ->
  py_orig_class_args obj = None ->
  type_records_parameters obj o args' = false ->
  py_has_iter obj = false ->
  let '(outcome, s', trace) :=
    _check_generic callees obj type_hint origin args options parents
      raise_on_error context s in
  outcome = Ret (mkCheckResult IS_VALID (is_immutable obj)) /\
  trace = (if is_immutable obj
           then [EvCacheAdd type_hint obj IS_VALID (noncachable_types options)]
           else []) /\
  filter (fun e => is_matcher_event e || is_check_event e) trace = [] /\
  cache s' = (if is_immutable obj
              then add_cache_entry type_hint obj IS_VALID
                     (noncachable_types options) (cache s)
              else cache s).
Proof.
  intros Hmiss Hproto Hres Hinst Hroute Horig Htype Hiter.
  rewrite (_check_generic_miss callees _ _ _ _ _ _ _ _ _ _ _ Hmiss Hproto Hres).
  unfold check_resolved. rewrite Hinst.
  match goal with |- context [if ?b then _ else _] => destruct b end.
  - unfold bind, write_cache, ret.
    destruct (is_immutable obj); cbn; auto.
  - unfold check_structure.
    unfold bind at 1. unfold set_copy.
    unfold bind at 1. unfold set_add.
    unfold bind at 1. rewrite dispatch_not_reached by assumption.
    unfold bind at 1. rewrite fallback_parameters_none by assumption.
    unfold fallback_items. rewrite Hiter.
    unfold bind, write_cache, ret.
    destruct (is_immutable obj), raise_on_error; cbn; auto.
Qed.

(** The last fallback hands the caller's own [parents] set to the nested
    check of an item; if that check does not come back, neither does
    [_check_generic]. *)
Lemma fallback_item_descent
    obj type_hint origin args options parents raise_on_error context s
    o hint0 args' item rest :
  valid_in_cache type_hint obj (cache s) = None ->
  is_non_runtime_protocol type_hint = false ->
  resolve_origin type_hint origin args = Ret (Some o, hint0 :: args') ->
  py_isinstance obj o = Some true ->
  reaches_matchers o = false ->
  py_orig_class_args obj = None ->
  type_records_parameters obj o (hint0 :: args') = false ->
  py_has_iter obj = true ->
  py_iter obj = Some (item :: rest) ->
  (forall s2, cache s2 = cache s -> sets_preserved s s2 ->
     fst (_check_instance_of_typehint callees item hint0 options parents
            raise_on_error "generic_item" s2) = Diverge) ->
  fst (fst (_check_generic callees obj type_hint origin args options parents
              raise_on_error context s)) = Diverge.
Proof.
  intros Hmiss Hproto Hres Hinst Hroute Horig Htype Hiter Hitems Hcallee.
  rewrite (_check_generic_miss callees _ _ _ _ _ _ _ _ _ _ _ Hmiss Hproto Hres).
  unfold check_resolved. rewrite Hinst.
  unfold check_structure.
  unfold bind at 1. unfold set_copy.
  unfold bind at 1. unfold set_add.
  unfold bind at 1. rewrite dispatch_not_reached by assumption.
  unfold bind at 1. rewrite fallback_parameters_none by assumption.
  unfold fallback_items. rewrite Hiter, Hitems. cbn [check_items].
  unfold bind at 1. unfold bind at 1. unfold bind at 1. unfold call_check.
  match goal with
  | |- context [_check_instance_of_typehint callees item hint0 options
                  parents raise_on_error "generic_item" ?s2] =>
      specialize (Hcallee s2 eq_refl);
      destruct (_check_instance_of_typehint callees item hint0 options
                  parents raise_on_error "generic_item" s2) as [out s3]
  end.
  cbn in Hcallee. rewrite Hcallee; [reflexivity |].
  intros r Hr. cbn [sets].
  rewrite list_lookup_insert_ne by lia. now rewrite lookup_app_l.
Qed.
End MoreClaims.

(** ** The recursion of entry point, dispatcher and matchers *)

Section RecursionFacts.
Context {value : Type} `{!PyRuntime value}.
Variable get_origin : value -> option value.
Variable get_args : value -> list value.
Variable shape_ok : ABC -> value -> list value -> bool.
Variable nested_checks : ABC -> value -> list value -> list (value * value).
Variable matcher_context : ABC -> string.
Variable guard_immutable : value -> bool.

Local Abbreviation check_n :=
  (check_at get_origin get_args shape_ok nested_checks matcher_context
     guard_immutable).
Local Abbreviation callees_n := (callees_of shape_ok nested_checks matcher_context).
Local Abbreviation matcher_n := (matcher shape_ok nested_checks matcher_context).

Implicit Types (check : @Check value) (s : State value).

Lemma check_nested_keeps_sets check pairs opts p raise_on_error ctx imm s out s' :
  keeps_sets check ->
  check_nested check pairs opts p raise_on_error ctx imm s = (out, s') ->
  sets_preserved s s'.
Proof.
  intros Hcheck. revert imm s.
  induction pairs as [| [item hint] pairs IH]; intros imm s; cbn.
  - intros [= <- <-]. apply sets_preserved_refl.
  - destruct (check item hint opts p raise_on_error ctx s) as [[r | e |] s1] eqn:E;
      apply Hcheck in E.
    + destruct (valid r).
      * intros H. eapply sets_preserved_trans; [exact E |]. eapply IH, H.
      * now intros [= <- <-].
    + now intros [= <- <-].
    + now intros [= <- <-].
Qed.

Lemma matcher_keeps_sets check kind obj h o args opts p raise_on_error s out s' :
  keeps_sets check ->
  matcher_n check kind obj h o args opts p raise_on_error s = (out, s') ->
  sets_preserved s s'.
Proof.
  intros Hcheck. unfold matcher.
  destruct (shape_ok kind obj args).
  - apply check_nested_keeps_sets, Hcheck.
  - intros [= <- <-]. apply sets_preserved_refl.
Qed.

Lemma sets_preserved_weaken p s s' :
  sets_preserved s s' -> sets_preserved_except p s s'.
Proof. intros H r Hr _. now apply H. Qed.

Lemma callees_of_keep_sets check :
  keeps_sets check -> callees_keep_sets (callees_n check).
Proof.
  intros Hcheck. constructor; cbn; intros.
  1-5: eapply sets_preserved_weaken, matcher_keeps_sets; eauto.
  - unfold matcher_callable in H. injection H as <- <-.
    apply sets_preserved_refl.
  - eapply Hcheck; eauto.
Qed.

Lemma check_at_keeps_sets n : keeps_sets (check_n n).
Proof.
  induction n as [| n IH]; intros item h opts p raise_on_error ctx s out s'.
  - cbn. intros [= <- <-]. apply sets_preserved_refl.
  - cbn. destruct (set_contains _ _).
    + intros [= <- <-]. apply sets_preserved_refl.
    + unfold run. intros Hrun.
      pose proof (_check_generic_keeps_sets (callees_n (check_n n)) item h
                    (get_origin h) (get_args h) opts p raise_on_error ctx s
                    (callees_of_keep_sets _ IH)) as Hpost.
      unfold post in Hpost.
      destruct (_check_generic _ _ _ _ _ _ _ _ _ s) as [[o1 s1] t1].
      injection Hrun as <- <-. tauto.
Qed.

(** *** The guard bounds the descent *)

Lemma ValidationState__eq__refl (t : ValidationState value) :
  ValidationState__eq__ t t = true.
Proof.
  unfold ValidationState__eq__, py_item_eq, py_is. cbn.
  now rewrite !Z.eqb_refl, String.eqb_refl.
Qed.

Lemma set_contains_added (c : PySet value) t :
  set_contains (set_added c t) t = true.
Proof.
  unfold set_added. destruct (set_contains c t) eqn:E; [exact E |].
  unfold set_contains. rewrite existsb_app. cbn [existsb].
  now rewrite ValidationState__eq__refl, orb_true_r.
Qed.

Lemma filter_length_le {A} (f g : A -> bool) (l : list A) :
  (forall x, g x = true -> f x = true) ->
  (length (List.filter g l) <= length (List.filter f l))%nat.
Proof.
  intros Hgf. induction l as [| x l IH]; cbn; [lia |].
  destruct (g x) eqn:Hg.
  - rewrite (Hgf _ Hg). cbn. lia.
  - destruct (f x); cbn; lia.
Qed.

Lemma filter_length_lt {A} (f g : A -> bool) (l : list A) x :
  (forall x, g x = true -> f x = true) ->
  In x l -> f x = true -> g x = false ->
  (length (List.filter g l) < length (List.filter f l))%nat.
Proof.
  intros Hgf Hin Hf Hg. induction l as [| y l IH]; [destruct Hin |].
  cbn. destruct Hin as [-> | Hin].
  - rewrite Hf, Hg. cbn.
    pose proof (filter_length_le f g l Hgf). lia.
  - specialize (IH Hin). destruct (g y) eqn:Hgy.
    + rewrite (Hgf _ Hgy). cbn. lia.
    + destruct (f y); cbn; lia.
Qed.

(** Adding a token of the universe that the set does not hold leaves
    fewer tokens unseen. *)
Lemma unseen_added (u : list (ValidationState value)) (c : PySet value) t :
  In t u -> set_contains c t = false ->
  (unseen u (set_added c t) < unseen u c)%nat.
Proof.
  intros Hin Hnew. unfold unseen.
  apply filter_length_lt with (x := t); [| exact Hin | now rewrite Hnew |].
  - intros x. unfold set_added. rewrite Hnew. unfold set_contains.
    rewrite existsb_app, negb_orb. now intros [? _]%andb_true_iff.
  - now rewrite set_contains_added.
Qed.

Section Finite.
Variable values : list value.
Hypothesis all_values : forall v : value, In v values.
Variable context0 : string.

Local Abbreviation tokens := (universe matcher_context values context0).
Local Abbreviation labels :=
  (context0 :: (matcher_context <$> specificity_order)).

Lemma token_in_universe obj hint ctx :
  In ctx labels -> In (mkValidationState (py_id obj) hint ctx) tokens.
Proof.
  intros Hctx. apply list_elem_of_In. unfold universe.
  apply list_elem_of_bind. exists obj. split; [| apply list_elem_of_In, all_values].
  apply list_elem_of_bind. exists hint. split; [| apply list_elem_of_In, all_values].
  apply list_elem_of_bind. exists ctx. split; [| now apply list_elem_of_In].
  apply list_elem_of_singleton. reflexivity.
Qed.

Lemma label_of_matcher kind : In (matcher_context kind) labels.
Proof. right. apply in_map. destruct kind; cbn; tauto. Qed.

(** Every resolved origin goes to a structural matcher. *)
Hypothesis structural_origins :
  forall h o args',
    resolve_origin h (get_origin h) (get_args h) = Ret (Some o, args') ->
    reaches_matchers o = true.

Lemma check_nested_comes_back check pairs opts p raise_on_error ctx imm s c :
  keeps_sets check ->
  (forall item h s', set_at s' p = c -> (p < length (sets s'))%nat ->
     fst (check item h opts p raise_on_error ctx s') <> Diverge) ->
  set_at s p = c -> (p < length (sets s))%nat ->
  fst (check_nested check pairs opts p raise_on_error ctx imm s) <> Diverge.
Proof.
  intros Hkeep Hback. revert imm s.
  induction pairs as [| [item hint] pairs IH]; intros imm s Hat Hlt; cbn;
    [discriminate |].
  specialize (Hback item hint s Hat Hlt).
  destruct (check item hint opts p raise_on_error ctx s) as [[r | e |] s1] eqn:E;
    cbn in *; try congruence.
  destruct (valid r); [| discriminate].
  apply Hkeep in E. apply IH.
  - now rewrite (sets_preserved_set_at _ _ _ E Hlt).
  - pose proof (sets_preserved_length _ _ E). lia.
Qed.

(** With [m] tokens of the universe still unseen by the [parents] set,
    depth [m + 1] is enough for the check to come back. *)
Lemma check_at_comes_back m :
  forall n obj hint opts parents raise_on_error ctx s,
    In ctx labels ->
    (unseen tokens (set_at s parents) <= m)%nat -> (m < n)%nat ->
    fst (check_n n obj hint opts parents raise_on_error ctx s) <> Diverge.
Proof.
  induction m as [m IH] using lt_wf_ind.
  intros [| n] obj hint opts parents raise_on_error ctx s Hctx Hm Hn; [lia |].
  cbn [check_at].
  destruct (set_contains _ _) eqn:Hguard; [discriminate |].
  pose proof (unseen_added tokens _ _ (token_in_universe obj hint ctx Hctx)
                Hguard) as Hless.
  unfold run.
  pose proof (_check_generic_comes_back (callees_n (check_n n)) obj hint
                (get_origin hint) (get_args hint) opts parents
                raise_on_error ctx s (structural_origins hint)) as Hpost.
  unfold post in Hpost.
  destruct (_check_generic _ _ _ _ _ _ _ _ _ s) as [[o1 s1] t1]. cbn.
  apply Hpost. clear Hpost.
  intros s2 o args out s3 Hat Hlt.
  assert (Hmatcher : forall kind,
             matcher_n (check_n n) kind obj hint o args opts
               (length (sets s)) raise_on_error s2 = (out, s3) ->
             out <> Diverge).
  { intros kind Hcall. unfold matcher in Hcall.
    destruct (shape_ok kind obj args); [| injection Hcall as <- _; discriminate].
    pose proof (check_nested_comes_back (check_n n)
                  (nested_checks kind obj args) opts (length (sets s))
                  raise_on_error (matcher_context kind) (is_immutable obj)
                  s2 (set_at s2 (length (sets s)))
                  (check_at_keeps_sets n)) as Hnested.
    rewrite Hcall in Hnested. apply Hnested; [| reflexivity | exact Hlt].
    intros item h s' Hat' Hlt'.
    apply (IH (unseen tokens (set_at s' (length (sets s))))).
    - rewrite Hat', Hat. lia.
    - apply label_of_matcher.
    - lia.
    - rewrite Hat', Hat. lia. }
  repeat split; try apply Hmatcher.
  cbn. unfold matcher_callable. now intros [= <- _].
Qed.
End Finite.
End RecursionFacts.

Section GuardedDescent.
Context {value : Type} `{!PyRuntime value}.
Variable get_origin : value -> option value.
Variable get_args : value -> list value.
Variable shape_ok : ABC -> value -> list value -> bool.
Variable nested_checks : ABC -> value -> list value -> list (value * value).
Variable matcher_context : ABC -> string.
Variable guard_immutable : value -> bool.
Variable values : list value.

Local Abbreviation check_n :=
  (check_at get_origin get_args shape_ok nested_checks matcher_context
     guard_immutable).
Local Abbreviation callees_n := (callees_of shape_ok nested_checks matcher_context).

Lemma unseen_le (u : list (ValidationState value)) (c : PySet value) :
  (unseen u c <= length u)%nat.
Proof.
  unfold unseen. induction u as [| t u IH]; cbn; [lia |].
  destruct (negb _); cbn; lia.
Qed.

(** The cycle guard at work, on the recursion modelled from sections
    4.3 and 4.5 (the side of C2 the code keeps).  In a world with
    finitely many objects and hints, where
    every resolved origin is routed to a structural matcher:
    - the check of any object against any hint comes back (returns or
      raises) as soon as the depth allowed exceeds the number of tokens
      of the world, a self-referential object and a hint that names
      itself included;
    - a descent whose token (id(obj), type_hint, context) is already in
      the [parents] set returns valid at once, the state untouched;
    - every structural matcher is handed a new set that holds that
      token. *)
Theorem guarded_descent_comes_back
    obj hint options parents raise_on_error context s :
  (forall v : value, In v values) ->
  (forall h o args',
     resolve_origin h (get_origin h) (get_args h) = Ret (Some o, args') ->
     reaches_matchers o = true) ->
  let token := mkValidationState (py_id obj) hint context in
  (forall n,
     (length (universe matcher_context values context) < n)%nat ->
     fst (check_n n obj hint options parents raise_on_error context s)
     <> Diverge) /\
  (forall n,
     set_contains (set_at s parents) token = true ->
     check_n (S n) obj hint options parents raise_on_error context s
     = (Ret (mkCheckResult IS_VALID (guard_immutable obj)), s)) /\
  (forall n,
     let '(_, _, trace) :=
       _check_generic (callees_n (check_n n)) obj hint (get_origin hint)
         (get_args hint) options parents raise_on_error context s in
     forall kind p seen res,
       In (EvMatcher kind (Some p) seen res) trace ->
       p = length (sets s) /\ set_contains seen token = true).
Proof.
  intros Hfin Hroute token. split; [| split].
  - intros n Hn.
    apply (check_at_comes_back get_origin get_args shape_ok nested_checks
             matcher_context guard_immutable values Hfin context Hroute
             (length (universe matcher_context values context))).
    + now left.
    + apply unseen_le.
    + exact Hn.
  - intros n Hguard. cbn [check_at]. fold token. now rewrite Hguard.
  - intros n.
    pose proof (_check_generic_keeps_sets (callees_n (check_n n)) obj hint
                  (get_origin hint) (get_args hint) options parents
                  raise_on_error context s
                  (callees_of_keep_sets _ _ _ _
                     (check_at_keeps_sets _ _ _ _ _ _ n))) as Hpost.
    unfold post in Hpost.
    destruct (_check_generic _ _ _ _ _ _ _ _ _ s) as [[o1 s1] t1].
    destruct Hpost as [_ Hev]. intros kind p seen res Hin.
    destruct (Hev _ _ _ _ Hin) as [-> ->]. split; [reflexivity |].
    apply set_contains_added.
Qed.
End GuardedDescent.

Module ToyFacts.
Import Toy.

Lemma cache_hit_witness :
  valid_in_cache c_int o_one (cache s_hit) = Some false /\
  let '(outcome, s', trace) :=
    _check_generic (callees 0) o_one c_int None [] options 0%nat true top_context s_hit in
  s' = s_hit /\ trace = [] /\
  (false = false /\ true = true ->
     outcome = Raise (TypeCheckedTypeError MsgNotInstanceOfTypeHint
                        TYPE_HINT_MISMATCH)) /\
  (~ (false = false /\ true = true) ->
     outcome = Ret (mkCheckResult false IS_IMMUTABLE)).
Proof.
  split; [reflexivity |].
  apply (cache_hit_returns_cached_verdict (callees 0) o_one c_int None []
           options 0%nat true top_context s_hit false).
  reflexivity.
Defined.

Lemma non_runtime_protocol_witness :
  is_non_runtime_protocol c_Proto = true /\
  let '(outcome, s', trace) :=
    _check_generic (callees 0) o_box c_Proto None [] options 0%nat true
      top_context s0 in
  trace = [] /\ s' = s0 /\
  (valid_in_cache c_Proto o_box (cache s0) = None ->
   outcome = Raise (TypeCheckedTypeError MsgProtocolNotRuntime
                      NON_RUNTIME_CHECKABLE_PROTOCOL)).
Proof.
  split; [reflexivity |].
  apply (non_runtime_protocol_rejected (callees 0) o_box c_Proto None []
           options 0%nat true top_context s0).
  reflexivity.
Defined.

Lemma pseudo_origin_witness :
  valid_in_cache h_Required_int o_one (cache s0) = None /\
  is_non_runtime_protocol h_Required_int = false /\
  is_pseudo_origin t_Required = true /\
  py_isinstance o_one t_Required = None /\
  _check_generic (callees 0) o_one h_Required_int (Some t_Required) [c_int]
    options 0%nat false top_context s0
  = (Raise (TypeCheckedTypeError MsgOutsideTypedDict VALIDATION_FAILED), s0, []).
Proof.
  do 4 (split; [reflexivity |]).
  apply (pseudo_origin_always_raises_validation_failed (callees 0) o_one
           h_Required_int t_Required [c_int] options 0%nat false top_context s0);
    reflexivity.
Defined.

Lemma dispatch_witness :
  valid_in_cache h_dict_int_int o_dict (cache s0) = None /\
  is_non_runtime_protocol h_dict_int_int = false /\
  resolve_origin h_dict_int_int (Some c_dict) [c_int; c_int]
    = Ret (Some c_dict, [c_int; c_int]) /\
  [c_int; c_int] <> [] /\
  py_isinstance o_dict c_dict = Some true /\
  py_bool c_dict = true /\
  (forall abc, py_issubclass c_dict abc <> None) /\
  (forall abc, In abc [Mapping; Set_; Sequence; Collection] ->
               py_issubclass c_dict abc = Some true ->
               py_issubclass c_dict Iterable = Some true) /\
  (exists abc, py_issubclass c_dict abc = Some true) /\
  let '(outcome, s', trace) :=
    _check_generic (callees 2) o_dict h_dict_int_int (Some c_dict)
      [c_int; c_int] options 0%nat false top_context s0 in
  exists kind,
    most_specific c_dict = Some kind /\
    (py_issubclass c_dict Mapping = Some true -> kind = Mapping) /\
    exists new_parents seen res,
      filter is_matcher_event trace = [EvMatcher kind new_parents seen res].
Proof.
  assert (H1 : forall abc, py_issubclass c_dict abc <> None)
    by (intros []; discriminate).
  assert (H2 : forall abc, In abc [Mapping; Set_; Sequence; Collection] ->
               py_issubclass c_dict abc = Some true ->
               py_issubclass c_dict Iterable = Some true)
    by (intros; reflexivity).
  assert (H3 : exists abc, py_issubclass c_dict abc = Some true)
    by (exists Mapping; reflexivity).
  do 3 (split; [reflexivity |]). split; [discriminate |].
  do 2 (split; [reflexivity |]).
  split; [exact H1 |]. split; [exact H2 |]. split; [exact H3 |].
  apply (dispatch_runs_most_specific_matcher (callees 2) o_dict h_dict_int_int
           (Some c_dict) [c_int; c_int] options 0%nat false top_context s0 c_dict
           [c_int; c_int]);
    first [reflexivity | discriminate | exact H1 | exact H2 | exact H3].
Defined.

Lemma fallback_vacuous_witness :
  valid_in_cache h_Box_int o_box (cache s0) = None /\
  is_non_runtime_protocol h_Box_int = false /\
  resolve_origin h_Box_int (Some c_Box) [c_int] = Ret (Some c_Box, [c_int]) /\
  py_isinstance o_box c_Box = Some true /\
  reaches_matchers c_Box = false /\
  py_orig_class_args o_box = None /\
  type_records_parameters o_box c_Box [c_int] = false /\
  py_has_iter o_box = false /\
  let '(outcome, s', trace) :=
    _check_generic (callees 0) o_box h_Box_int (Some c_Box) [c_int] options
      0%nat true top_context s0 in
  outcome = Ret (mkCheckResult IS_VALID (is_immutable o_box)) /\
  trace = (if is_immutable o_box
           then [EvCacheAdd h_Box_int o_box IS_VALID (noncachable_types options)]
           else []) /\
  filter (fun e => is_matcher_event e || is_check_event e) trace = [] /\
  cache s' = (if is_immutable o_box
              then add_cache_entry h_Box_int o_box IS_VALID
                     (noncachable_types options) (cache s0)
              else cache s0).
Proof.
  do 8 (split; [reflexivity |]).
  apply (fallback_accepts_vacuously (callees 0) o_box h_Box_int (Some c_Box)
           [c_int] options 0%nat true top_context s0 c_Box [c_int]); reflexivity.
Defined.

Lemma hash_agrees_with_equality_toy :
  forall a b : tv, py_item_eq a b = true -> py_hash a = py_hash b.
Proof. intros [] []; vm_compute; congruence. Qed.

(** The two tuples [(1,)] are equal and are two objects. *)
Lemma cache_key_witness :
  (forall a b : tv, py_item_eq a b = true -> py_hash a = py_hash b) /\
  py_eq o_tuple_a o_tuple_b = true /\
  let k1 := CacheKey__init__ c_tuple o_tuple_a in
  let k2 := CacheKey__init__ c_tuple o_tuple_b in
  (CacheKey__eq__ k1 k2 = true <->
   py_item_eq (obj_type k1) (obj_type k2) = true /\
   instance_id k1 = instance_id k2) /\
  (CacheKey__eq__ k1 k2 = true -> CacheKey__hash__ k1 = CacheKey__hash__ k2) /\
  (forall type_hint a b,
     py_id a <> py_id b ->
     CacheKey__eq__ (CacheKey__init__ type_hint a) (CacheKey__init__ type_hint b)
     = false /\
     forall v noncachable c,
       valid_in_cache type_hint b (add_cache_entry type_hint a v noncachable c)
       = valid_in_cache type_hint b c).
Proof.
  split; [exact hash_agrees_with_equality_toy |]. split; [reflexivity |].
  apply (cache_key_equality_is_type_and_identity
           (CacheKey__init__ c_tuple o_tuple_a)
           (CacheKey__init__ c_tuple o_tuple_b)
           hash_agrees_with_equality_toy).
Defined.

(** The callees of the toy runtime keep the set objects. *)
Lemma callees_keep_sets_toy n : callees_keep_sets (callees n).
Proof. apply callees_of_keep_sets, check_at_keeps_sets. Qed.

Lemma parents_set_witness :
  callees_keep_sets (callees 2) /\
  (0 < length (sets s0))%nat /\
  let '(outcome, s', trace) :=
    _check_generic (callees 2) o_list h_list_int (Some c_list) [c_int]
      options 0%nat false top_context s0 in
  set_at s' 0%nat = set_at s0 0%nat /\
  sets_preserved s0 s' /\
  forall kind p seen res,
    In (EvMatcher kind (Some p) seen res) trace ->
    p = length (sets s0) /\ p <> 0%nat /\
    seen = set_added (set_at s0 0%nat)
             (mkValidationState (py_id o_list) h_list_int top_context).
Proof.
  split; [apply callees_keep_sets_toy |]. split; [cbn; lia |].
  apply (parents_set_never_mutated (callees 2) o_list h_list_int (Some c_list)
           [c_int] options 0%nat false top_context s0).
  - apply callees_keep_sets_toy.
  - cbn; lia.
Defined.

Lemma cache_write_witness :
  let '(outcome, s', trace) :=
    _check_generic (callees 0) o_one c_int None [] options 0%nat false top_context s0 in
  (forall h o v nc,
     In (EvCacheAdd h o v nc) trace ->
     (h = c_int /\ o = o_one /\ v = IS_VALID /\
      nc = noncachable_types options) /\
     exists r,
       outcome = Ret r /\ valid r = true /\ immutable r = true /\
       (is_immutable o_one = true \/
        exists kind p seen, In (EvMatcher kind p seen (Ret r)) trace)) /\
  (forall v c,
     is_noncachable o_one (noncachable_types options) = true ->
     add_cache_entry c_int o_one v (noncachable_types options) c = c).
Proof.
  apply (cache_written_only_when_valid_and_immutable (callees 0) o_one c_int
           None [] options 0%nat false top_context s0).
Defined.

Lemma immutable_flag_witness :
  let '(outcome, s', trace) :=
    _check_generic (callees 1) o_frozen_bag h_FrozenBag_int
      (Some c_FrozenBag) [c_int] options 0%nat false top_context s0 in
  forall r, outcome = Ret r ->
    match valid_in_cache h_FrozenBag_int o_frozen_bag (cache s0) with
    | Some _ => immutable r = IS_IMMUTABLE
    | None =>
        (forall kind p seen res,
           In (EvMatcher kind p seen res) trace -> res = Ret r) /\
        ((forall kind p seen res, ~ In (EvMatcher kind p seen res) trace) ->
         (valid r = true ->
          immutable r
          = is_immutable o_frozen_bag && forallb id (nested_flags trace)) /\
         (valid r = false ->
          immutable r = if existsb is_check_event trace
                        then NOT_IMMUTABLE else is_immutable o_frozen_bag))
    end.
Proof.
  apply (immutable_flag_of_result (callees 1) o_frozen_bag h_FrozenBag_int
           (Some c_FrozenBag) [c_int] options 0%nat false top_context s0).
Defined.

(** C8, as the specification has it, fails.  A frozen bag holding ['x']
    is checked against [FrozenBag[int]]: the bag is immutable, the one
    nested check reports the item immutable (and invalid), so the
    conjunction of the flags is true; the result is
    [CheckResult(NOT_VALID, NOT_IMMUTABLE)]. *)
Lemma invalid_fallback_result_not_the_conjunction :
  let '(outcome, s', trace) :=
    _check_generic (callees 1) o_frozen_bag h_FrozenBag_int
      (Some c_FrozenBag) [c_int] options 0%nat false top_context s0 in
  is_immutable o_frozen_bag = true /\
  nested_flags trace = [true] /\
  outcome = Ret (mkCheckResult NOT_VALID NOT_IMMUTABLE) /\
  ~ (exists r, outcome = Ret r /\
       immutable r
       = is_immutable o_frozen_bag && forallb id (nested_flags trace)).
Proof.
  vm_compute. repeat split. intros (r & [= <-] & Hr). discriminate Hr.
Qed.

(** What the missing token costs, on the recursion modelled from
    sections 4.3 and 4.5 (background to C2).  [Bag] is a
    class whose instances are iterable and which is falsy, so no
    structural matcher is tried; the bag [o_bag] yields itself and the
    hint [Bags = Bag[Bags]] names itself.  The fallback checks the item
    against [args[0]] with the caller's [parents] set, to which the
    token of the descent was not added (the call is made with the empty
    set): the check never comes back, whatever depth is allowed. *)
Lemma fallback_descent_diverges n :
  forall ctx s,
    cache s = [] -> sets s !! 0%nat = Some [] ->
    fst (check n o_bag h_Bags options 0%nat false ctx s) = Diverge.
Proof.
  induction n as [| n IH]; intros ctx s Hcache Hsets; [reflexivity |].
  unfold check. cbn [check_at].
  assert (Hat : set_at s 0%nat = []) by (unfold set_at; now rewrite Hsets).
  rewrite Hat. cbn [set_contains existsb].
  unfold run.
  pose proof (fallback_item_descent (callees n) o_bag h_Bags
                (get_origin h_Bags) (get_args h_Bags) options 0%nat false
                ctx s c_Bag h_Bags [] o_bag []) as Hdescent.
  unfold callees in Hdescent. fold (check n) in Hdescent.
  destruct (_check_generic _ _ _ _ _ _ _ _ _ s) as [[o1 s1] t1].
  apply Hdescent; try reflexivity.
  - unfold valid_in_cache. now rewrite Hcache.
  - intros s2 Hc2 Hs2. apply IH.
    + now rewrite Hc2.
    + rewrite <- Hsets. apply Hs2. apply lookup_lt_Some in Hsets. exact Hsets.
Qed.

Lemma fallback_descent_never_comes_back :
  snd (generic 0 o_bag h_Bags false)
  = [EvCheck o_bag h_Bags 0%nat [] "generic_item" Diverge] /\
  ~ exists n,
      fst (check n o_bag h_Bags options 0%nat false top_context s0) <> Diverge.
Proof.
  split; [reflexivity |].
  intros [n Hn]. apply Hn. now apply fallback_descent_diverges.
Qed.

Lemma structural_origins_toy :
  forall h o args',
    @resolve_origin tv runtime_truthy h (get_origin_of_container h) (get_args h)
      = Ret (Some o, args') ->
    @reaches_matchers tv runtime_truthy o = true.
Proof.
  intros h o args'. destruct h; cbn; intros [= <- <-]; reflexivity.
Qed.

Lemma all_values_toy : forall v : tv, In v all_values.
Proof. intros []; cbn; tauto. Qed.

Lemma guarded_descent_witness :
  (forall v : tv, In v all_values) /\
  (forall h o args',
     @resolve_origin tv runtime_truthy h (get_origin_of_container h) (get_args h)
       = Ret (Some o, args') ->
     @reaches_matchers tv runtime_truthy o = true) /\
  let token := mkValidationState (address o_self_list) h_Nested top_context in
  (forall n,
     (length (@universe tv runtime_truthy matcher_context all_values top_context) < n)%nat ->
     fst (check_truthy n o_self_list h_Nested options 0%nat false top_context s0)
     <> Diverge) /\
  (forall n,
     @set_contains tv runtime_truthy (set_at s0 0%nat) token = true ->
     check_truthy (S n) o_self_list h_Nested options 0%nat false top_context s0
     = (Ret (mkCheckResult IS_VALID NOT_IMMUTABLE), s0)) /\
  (forall n,
     let '(_, _, trace) :=
       @_check_generic tv runtime_truthy
         (@callees_of tv runtime_truthy shape_ok nested_checks matcher_context
            (check_truthy n))
         o_self_list h_Nested (get_origin_of_container h_Nested)
         (get_args h_Nested) options 0%nat false top_context s0 in
     forall kind p seen res,
       In (EvMatcher kind (Some p) seen res) trace ->
       p = length (sets s0) /\
       @set_contains tv runtime_truthy seen token = true).
Proof.
  split; [exact all_values_toy |]. split; [exact structural_origins_toy |].
  apply (@guarded_descent_comes_back tv runtime_truthy
           get_origin_of_container get_args shape_ok nested_checks
           matcher_context (fun _ => NOT_IMMUTABLE) all_values
           o_self_list h_Nested options 0%nat false top_context s0
           all_values_toy structural_origins_toy).
Defined.

(** The self-referential list against [Nested = list[Nested]], run. *)
Example self_list_against_nested :
  fst (check_truthy 3 o_self_list h_Nested options 0%nat false top_context s0)
  = Ret (mkCheckResult IS_VALID NOT_IMMUTABLE).
Proof. reflexivity. Qed.

(** C4, as the specification has it, fails for a falsy origin.  The
    class [FrozenBag] is iterable, so it satisfies the Iterable
    protocol, and its metaclass makes it falsy: line 155 skips the whole
    dispatch, and [FrozenBag[int]] is checked by the fallback, with no
    structural matcher called.  Every other condition of the dispatch
    holds. *)
Lemma falsy_origin_reaches_no_matcher :
  valid_in_cache h_FrozenBag_int o_frozen_bag (cache s0) = None /\
  is_non_runtime_protocol h_FrozenBag_int = false /\
  resolve_origin h_FrozenBag_int (Some c_FrozenBag) [c_int]
    = Ret (Some c_FrozenBag, [c_int]) /\
  [c_int] <> [] /\
  py_isinstance o_frozen_bag c_FrozenBag = Some true /\
  (forall abc, py_issubclass c_FrozenBag abc <> None) /\
  (forall abc, In abc [Mapping; Set_; Sequence; Collection] ->
               py_issubclass c_FrozenBag abc = Some true ->
               py_issubclass c_FrozenBag Iterable = Some true) /\
  py_issubclass c_FrozenBag Iterable = Some true /\
  py_bool c_FrozenBag = false /\
  let '(outcome, s', trace) :=
    _check_generic (callees 1) o_frozen_bag h_FrozenBag_int (Some c_FrozenBag)
      [c_int] options 0%nat false top_context s0 in
  filter is_matcher_event trace = [] /\
  ~ exists kind new_parents seen res,
      filter is_matcher_event trace = [EvMatcher kind new_parents seen res].
Proof.
  do 3 (split; [reflexivity |]). split; [discriminate |].
  split; [reflexivity |]. split; [intros []; discriminate |].
  split; [intros; reflexivity |]. do 2 (split; [reflexivity |]).
  split; [reflexivity |].
  intros (kind & new_parents & seen & res & H). discriminate H.
Qed.

(** C3, as the specification has it, fails: the tag raised for a
    pseudo-origin is not one of its own.  [Required[int]] checked with
    [raise_on_error=False] and the string ['x'] checked against
    [list[int]] with [raise_on_error=True] raise the same tag,
    VALIDATION_FAILED; the second origin, [list], is no pseudo-origin. *)
Lemma pseudo_origin_tag_not_dedicated :
  exists tag m1 m2,
    fst (fst (generic 0 o_one h_Required_int false))
      = Raise (TypeCheckedTypeError m1 tag) /\
    get_origin h_Required_int = Some t_Required /\
    is_pseudo_origin t_Required = true /\
    fst (fst (generic 0 o_x h_list_int true))
      = Raise (TypeCheckedTypeError m2 tag) /\
    get_origin h_list_int = Some c_list /\
    is_pseudo_origin c_list = false.
Proof.
  exists VALIDATION_FAILED, MsgOutsideTypedDict, MsgNotInstanceOfOrigin.
  repeat split; reflexivity.
Qed.
End ToyFacts.

(** * More properties of [_check_generic] and [CacheKey] *)

Section ReadingFacts.
Context {value : Type} `{!PyRuntime value}.
Variable callees : @Callees value.

Implicit Types (obj type_hint : value) (origin : option value)
  (args : list value) (options : Options value) (parents : nat)
  (raise_on_error : bool) (context : string) (s : State value).

Lemma insert_at_end {A} (l : list A) (x y : A) :
  <[length l := y]> (l ++ [x]) = l ++ [y].
Proof. induction l as [| a l IH]; cbn; [reflexivity | f_equal; exact IH]. Qed.

(** Lines 152-153 leave [with_new_parents]. *)
Lemma copy_add_state s parents (token : ValidationState value) :
  {| cache := cache s;
     sets := <[length (sets s) :=
                set_added
                  (set_at {| cache := cache s;
                             sets := sets s ++ [set_at s parents] |}
                     (length (sets s))) token]>
               (sets s ++ [set_at s parents]) |}
  = with_new_parents s parents token.
Proof.
  unfold with_new_parents. f_equal.
  refine (eq_trans (insert_at_end _ _ _) _). do 3 f_equal.
  unfold set_at. cbn [sets]. now rewrite list_lookup_middle by reflexivity.
Qed.

(** The dispatch of lines 155-185 does one of three things: nothing, a
    raw TypeError from [issubclass], or one call of the matcher of the
    most specific kind. *)
Lemma dispatch_post obj type_hint o args options p raise_on_error s :
  post (dispatch callees obj type_hint o args options p raise_on_error) s
    (fun out s' t =>
       (out = Ret None /\ s' = s /\ t = [] /\
        (reaches_matchers o = false \/ most_specific o = None)) \/
       (out = Raise PyTypeError /\ s' = s /\ t = [] /\
        exists abc, py_issubclass o abc = None) \/
       exists kind res,
         most_specific o = Some kind /\
         matcher_call callees kind obj type_hint o args options p
           raise_on_error s = (res, s') /\
         t = [EvMatcher kind (matcher_parents kind p)
                (from_option (set_at s) [] (matcher_parents kind p)) res] /\
         out = match res with
               | Ret r => Ret (Some r)
               | Raise e => Raise e
               | Diverge => Diverge
               end).
Proof.
  unfold dispatch, reaches_matchers, most_specific, specificity_order, satisfies.
  repeat post_step; rewrite ?app_nil_r; cbn [app andb].
  all: try solve [left; repeat split; left;
                  repeat match goal with
                         | H : py_bool _ = _ |- _ => rewrite H; clear H
                         | H : is_collections_abc _ = _ |- _ => rewrite H; clear H
                         end;
                  reflexivity].
  all: try solve [left; repeat split; right; cbn [List.find];
                  repeat match goal with
                         | H : py_issubclass _ _ = _ |- _ => rewrite H; clear H
                         end;
                  repeat (rewrite bool_decide_eq_false_2 by discriminate);
                  reflexivity].
  all: try solve [right; left; repeat split; eauto].
  all: right; right.
  all: match goal with
       | H : _check_collections_abc_mapping _ _ _ _ _ _ _ _ _ = _ |- _ =>
           exists Mapping
       | H : _check_collections_abc_set _ _ _ _ _ _ _ _ _ = _ |- _ =>
           exists Set_
       | H : _check_collections_abc_sequence _ _ _ _ _ _ _ _ _ = _ |- _ =>
           exists Sequence
       | H : _check_collections_abc_collection _ _ _ _ _ _ _ _ _ = _ |- _ =>
           exists Collection
       | H : _check_collections_abc_iterable _ _ _ _ _ _ _ _ _ = _ |- _ =>
           exists Iterable
       | H : _check_collections_abc_callable _ _ _ _ _ _ _ = _ |- _ =>
           exists Callable
       end.
  all: eexists; cbn [List.find matcher_call matcher_parents from_option].
  all: repeat match goal with
              | H : py_issubclass _ _ = _ |- _ => rewrite H; clear H
              end.
  all: repeat (rewrite bool_decide_eq_true_2 by reflexivity
               || rewrite bool_decide_eq_false_2 by discriminate).
  all: repeat split; try eassumption; reflexivity.
Qed.

(** ** The loops of the fallback, event by event *)

Lemma post_and {A} (m : M value A) s (Q1 Q2 : Outcome A -> _) :
  post m s Q1 -> post m s Q2 ->
  post m s (fun o s' t => Q1 o s' t /\ Q2 o s' t).
Proof. unfold post. destruct (m s) as [[o s'] t]. auto. Qed.

Lemma loop_trace_step parents label raise_on_error item hint seen r o s' t :
  valid r = true ->
  loop_trace parents label raise_on_error o s' t ->
  loop_trace parents label raise_on_error o s'
    ([EvCheck item hint parents seen label (Ret r)] ++ t).
Proof.
  intros Hv (Hall & Hlast & Hfail & Ho). repeat split.
  - constructor; [| exact Hall]. now exists item, hint, seen, (Ret r).
  - cbn. destruct (check_results t); [reflexivity |]. now rewrite Hv.
  - intros ev res [<- | Hin] Hres.
    + injection Hres as <-. exact I.
    + eauto.
  - destruct o as [[r' | imm'] | |]; try exact I; unfold all_valid in *; cbn.
    + destruct Ho as (-> & -> & Hnot). repeat split. now rewrite Hv.
    + now rewrite Hv.
Qed.

Lemma loop_trace_stop parents label raise_on_error item hint seen res
    (o : Outcome (CheckResult + bool)) s' :
  same_failure res o ->
  match o with
  | Ret (inl r) =>
      r = mkCheckResult NOT_VALID NOT_IMMUTABLE /\ raise_on_error = false /\
      exists r', res = Ret r' /\ valid r' = false
  | Ret (inr _) => False
  | _ => True
  end ->
  loop_trace parents label raise_on_error o s'
    [EvCheck item hint parents seen label res].
Proof.
  intros Hfail Ho. repeat split.
  - constructor; [| constructor]. now exists item, hint, seen, res.
  - intros ev res' [<- | []] Hres. injection Hres as <-. exact Hfail.
  - destruct o as [[r' | imm'] | |]; try exact I; [| destruct Ho].
    destruct Ho as (-> & -> & r'' & -> & Hv). repeat split.
    unfold all_valid. cbn. now rewrite Hv.
Qed.

Lemma loop_trace_nil parents label raise_on_error
    (o : Outcome (CheckResult + bool)) s' :
  match o with Ret (inl _) => False | _ => True end ->
  loop_trace parents label raise_on_error o s' [].
Proof.
  intros Ho. repeat split; [constructor | intros ? ? [] |].
  destruct o as [[r' | imm'] | |]; try exact I; [destruct Ho | reflexivity].
Qed.

Lemma check_parameters_trace pairs options parents raise_on_error imm s :
  post (check_parameters callees pairs options parents raise_on_error imm) s
    (loop_trace parents "generic_parameter" raise_on_error).
Proof.
  revert imm s. induction pairs as [| [item hint] pairs IH]; intros imm s.
  - now apply loop_trace_nil.
  - cbn [check_parameters]. post_step. post_step.
    + destruct (valid out) eqn:Hv; cbn [negb]; lazy beta iota.
      * eapply post_weaken; [apply IH |]. intros o s1 t Hpost.
        now apply loop_trace_step.
      * destruct raise_on_error; post_step; rewrite app_nil_r;
          apply loop_trace_stop; cbn; eauto 6.
    + now apply loop_trace_stop.
    + now apply loop_trace_stop.
Qed.

Lemma check_items_trace items args options parents raise_on_error imm s :
  post (check_items callees items args options parents raise_on_error imm) s
    (loop_trace parents "generic_item" raise_on_error).
Proof.
  revert imm s. induction items as [| item items IH]; intros imm s.
  - now apply loop_trace_nil.
  - cbn [check_items]. destruct args as [| hint args].
    { now apply loop_trace_nil. }
    post_step. post_step.
    + destruct (valid out) eqn:Hv; cbn [negb]; lazy beta iota.
      * eapply post_weaken; [apply IH |]. intros o s1 t Hpost.
        now apply loop_trace_step.
      * destruct raise_on_error; post_step; rewrite app_nil_r;
          apply loop_trace_stop; cbn; eauto 6.
    + now apply loop_trace_stop.
    + now apply loop_trace_stop.
Qed.

(** Both readings of a loop at once. *)
Lemma check_parameters_read pairs options parents raise_on_error imm s :
  post (check_parameters callees pairs options parents raise_on_error imm) s
    (fun o s' t =>
       loop_post callees s parents "generic_parameter" imm raise_on_error o s' t
       /\ loop_trace parents "generic_parameter" raise_on_error o s' t).
Proof. apply post_and; [apply check_parameters_post | apply check_parameters_trace]. Qed.

Lemma check_items_read items args options parents raise_on_error imm s :
  post (check_items callees items args options parents raise_on_error imm) s
    (fun o s' t =>
       loop_post callees s parents "generic_item" imm raise_on_error o s' t
       /\ loop_trace parents "generic_item" raise_on_error o s' t).
Proof. apply post_and; [apply check_items_post | apply check_items_trace]. Qed.
End ReadingFacts.

(** The dispatch and the loops under [post], by their lemmas. *)
Ltac post_dispatch H :=
  lazy beta iota;
  lazymatch goal with
  | |- post (dispatch _ _ _ _ _ _ _ _) _ _ =>
      eapply post_weaken; [apply dispatch_post |];
      let k := fresh "kind" in
      let r := fresh "res" in
      intros ? ? ?
        [(-> & -> & -> & H) | [(-> & -> & -> & H) | (k & r & H & ? & -> & ->)]];
      [ | | destruct r as [? | ? |]]
  end.

Ltac post_read H1 H2 :=
  lazy beta iota;
  lazymatch goal with
  | |- post (check_parameters _ _ _ _ _ _) _ _ =>
      eapply post_weaken; [apply check_parameters_read |];
      intros [[? | ?] | ? |] ? ? [H1 H2]
  | |- post (check_items _ _ _ _ _ _ _) _ _ =>
      eapply post_weaken; [apply check_items_read |];
      intros [[? | ?] | ? |] ? ? [H1 H2]
  end.

(** The whole of [_check_generic], run symbolically. *)
Ltac run_generic :=
  unfold _check_generic, check_resolved, check_structure,
    fallback_parameters, parameters_done, fallback_items;
  repeat (post_step || post_read ipattern:(Hloop) ipattern:(Htrace)
          || post_dispatch ipattern:(Hkind)).

Section Paths.
Context {value : Type} `{!PyRuntime value}.
Variable callees : @Callees value.

Implicit Types (obj type_hint : value) (origin : option value)
  (args : list value) (options : Options value) (parents : nat)
  (raise_on_error : bool) (context : string) (s : State value).

(** ** Error policy *)

(** X1.  With [raise_on_error] set, [_check_generic] never returns an
    invalid result: whatever the callees do, every result it returns is
    valid, and every mismatch it finds itself is raised. *)
Theorem never_invalid_when_raising
    obj type_hint origin args options parents context s :
  post (_check_generic callees obj type_hint origin args options parents
          true context) s
    (fun outcome _ _ => forall r, outcome = Ret r -> valid r = true).
Proof.
  run_generic.
  all: intros rr Hrr; try discriminate Hrr; injection Hrr as <-;
    try reflexivity.
  all: try (destruct Hloop as (_ & _ & Ho); destruct Ho as (_ & _ & Hf);
            discriminate Hf).
  all: cbn [orb andb negb valid] in *;
    repeat match goal with
           | H : ?b || false = true |- _ => rewrite orb_false_r in H
           | H : negb _ = false |- _ => apply negb_false_iff in H
           end; try assumption.
Qed.

(** ** The shape of a call *)

(** X2.  What a call of [_check_generic] is made of: it calls one
    structural matcher, or makes nested checks (all of generic
    parameters, or all of items, each with the caller's own [parents]
    set), never both; after that it makes at most one cache write, for
    (type_hint, obj) with the verdict valid, and the write is the last
    thing it does. *)
Theorem shape_of_a_call
    obj type_hint origin args options parents raise_on_error context s :
  post (_check_generic callees obj type_hint origin args options parents
          raise_on_error context) s
    (fun _ _ trace =>
       exists calls writes,
         trace = calls ++ writes /\
         (writes = [] \/
          writes = [EvCacheAdd type_hint obj IS_VALID (noncachable_types options)])
         /\
         ((exists kind p seen res, calls = [EvMatcher kind p seen res]) \/
          Forall (is_check_on parents "generic_parameter") calls \/
          Forall (is_check_on parents "generic_item") calls)).
Proof.
  run_generic.
  all: rewrite ?app_nil_r; cbn [app valid].
  all: try match goal with
       | H : loop_post _ _ _ _ _ _ _ _ _ |- _ => destruct H as (_ & Hall & _)
       end.
  all: try match goal with
       | H : ?v && immutable ?r = true |- _ =>
           apply andb_true_iff in H as [_ H]; rewrite H
       end.
  all: lazymatch goal with
       | |- exists calls writes, ?c ++ [?w] = _ /\ _ => exists c, [w]
       | |- exists calls writes, [?m; ?w] = _ /\ _ => exists [m], [w]
       | |- exists calls writes, [EvCacheAdd ?a ?b ?c ?d] = _ /\ _ =>
           exists [], [EvCacheAdd a b c d]
       | |- exists calls writes, ?c = _ /\ _ => exists c, []
       end.
  all: rewrite ?app_nil_r; (split; [reflexivity |]); (split; [auto |]).
  all: try solve [left; eauto].
  all: try solve [right; left; first [assumption | constructor]].
  all: try solve [right; right; assumption].
Qed.

Lemma check_results_app (t1 t2 : list (Event value)) :
  check_results (t1 ++ t2) = check_results t1 ++ check_results t2.
Proof.
  induction t1 as [| e t1 IH]; [reflexivity |].
  destruct e; cbn; now rewrite ?IH.
Qed.

(** X3.  A callee that does not return ends the call the same way: when
    a structural matcher or a nested check raises an exception, whatever
    it is, [_check_generic] raises that same exception, unchanged; when
    one does not come back, neither does [_check_generic]. *)
Theorem callee_failure_goes_up
    obj type_hint origin args options parents raise_on_error context s :
  post (_check_generic callees obj type_hint origin args options parents
          raise_on_error context) s
    (fun outcome _ trace =>
       forall ev res,
         In ev trace -> event_result ev = Some res -> same_failure res outcome).
Proof.
  run_generic.
  all: intros ev res Hin Hres;
    repeat (rewrite in_app_iff in Hin || cbn [In] in Hin).
  all: try match goal with
       | H : loop_trace _ _ _ _ _ _ |- _ => destruct H as (_ & _ & Hfail & _)
       end.
  all: repeat match goal with
              | H : _ \/ _ |- _ => destruct H
              | H : False |- _ => destruct H
              end.
  all: try (subst ev; cbn in Hres; try discriminate Hres;
            injection Hres as <-; cbn; auto).
  all: try match goal with
       | Hi : In ?e ?t, Hr : event_result ?e = Some ?r |- _ =>
           specialize (Hfail _ _ Hi Hr); destruct r; cbn in *;
           first [exact I | congruence]
       end.
Qed.

(** X4.  The nested checks of the fallback stop at the first one that is
    not valid: in every call, each nested check but the last returned a
    valid result; and when [_check_generic] returns a valid result, every
    nested check it made returned a valid one. *)
Theorem nested_checks_stop_at_first_invalid
    obj type_hint origin args options parents raise_on_error context s :
  post (_check_generic callees obj type_hint origin args options parents
          raise_on_error context) s
    (fun outcome _ trace =>
       all_but_last_valid (check_results trace) = true /\
       (forall r, outcome = Ret r -> valid r = true ->
                  all_valid (check_results trace) = true)).
Proof.
  run_generic.
  all: rewrite ?check_results_app; cbn [check_results app]; rewrite ?app_nil_r.
  all: try match goal with
       | H : loop_trace _ _ _ _ _ _ |- _ => destruct H as (_ & Hlast & _ & Ho)
       end.
  all: split; [first [reflexivity | assumption] |].
  all: intros rr Hrr Hvalid; try discriminate Hrr; injection Hrr as <-;
    try reflexivity; try assumption.
  all: try (destruct Ho as (-> & _); discriminate Hvalid).
Qed.

(** ** The cache *)

Lemma dict_key_match_refl (k : CacheKey value) : dict_key_match k k = true.
Proof.
  unfold dict_key_match, CacheKey__eq__, py_item_eq, py_is. cbn.
  now rewrite !Z.eqb_refl.
Qed.

(** A verdict stored for a cachable object is the one looked up. *)
Lemma lookup_after_add type_hint obj v noncachable (c : Cache value) :
  is_noncachable obj noncachable = false ->
  valid_in_cache type_hint obj (add_cache_entry type_hint obj v noncachable c)
  = Some v.
Proof.
  intros Hnc. unfold valid_in_cache, add_cache_entry. rewrite Hnc.
  unfold cache_lookup, cache_store. cbn [List.find fst].
  now rewrite dict_key_match_refl.
Qed.

(** After a valid, immutable result for a cachable object, the cache
    holds the verdict. *)
Lemma valid_immutable_result_is_cached
    obj type_hint origin args options parents raise_on_error context s :
  is_noncachable obj (noncachable_types options) = false ->
  post (_check_generic callees obj type_hint origin args options parents
          raise_on_error context) s
    (fun outcome s' _ =>
       forall r, outcome = Ret r -> valid r = true -> immutable r = true ->
         valid_in_cache type_hint obj (cache s') = Some true).
Proof.
  intros Hnc. run_generic.
  all: intros rr Hrr Hv Hi; try discriminate Hrr; injection Hrr as <-;
    cbn [valid immutable cache] in *; try discriminate; subst.
  all: try match goal with
       | H : loop_post _ _ _ _ _ _ (Ret (inl _)) _ _ |- _ =>
           destruct H as (_ & _ & Ho); destruct Ho as (-> & _);
           discriminate
       end.
  all: try assumption.
  all: try (apply lookup_after_add; assumption).
  all: try match goal with
       | H1 : valid ?r = true, H2 : immutable ?r = true,
         H : valid ?r && immutable ?r = _ |- _ =>
           rewrite H1, H2 in H; try discriminate H
       end.
  all: try (rewrite Hi; apply lookup_after_add; assumption).
Qed.

(** X5.  Idempotence through the cache.  Whenever [_check_generic]
    returns a valid, immutable result for an object whose type is not in
    [noncachable_types], any later call for the same (type_hint, obj),
    from the state it left, whatever the other arguments and the callees,
    returns [CheckResult(IS_VALID, IS_IMMUTABLE)] at once: nothing is
    called or written and the state stays as it is. *)
Theorem valid_immutable_result_served_from_cache
    obj type_hint origin args options parents raise_on_error context s :
  is_noncachable obj (noncachable_types options) = false ->
  post (_check_generic callees obj type_hint origin args options parents
          raise_on_error context) s
    (fun outcome s1 _ =>
       forall r, outcome = Ret r -> valid r = true -> immutable r = true ->
         forall (callees' : @Callees value) origin' args' options' parents'
                raise_on_error' context',
           _check_generic callees' obj type_hint origin' args' options'
             parents' raise_on_error' context' s1
           = (Ret (mkCheckResult IS_VALID IS_IMMUTABLE), s1, [])).
Proof.
  intros Hnc.
  eapply post_weaken; [apply valid_immutable_result_is_cached, Hnc |].
  intros o s1 t Hcached r Hr Hv Hi callees' origin' args' options' parents'
    raise_on_error' context'.
  unfold _check_generic, bind, read_cache.
  now rewrite (Hcached r Hr Hv Hi).
Qed.

Lemma check_parameters_keeps (P : Cache value -> Prop) pairs options parents
    raise_on_error imm s :
  callees_keep callees P -> P (cache s) ->
  post (check_parameters callees pairs options parents raise_on_error imm) s
    (fun _ s' _ => P (cache s')).
Proof.
  intros Hkeep. pose proof Hkeep as Hkeep'. unfold callees_keep in Hkeep'.
  revert imm s.
  induction pairs as [| [item hint] pairs IH]; intros imm s HP; [exact HP |].
  cbn [check_parameters]. post_step. post_step.
  all: match goal with
       | H : _check_instance_of_typehint _ _ _ _ _ _ _ _ = _ |- _ =>
           pose proof (proj2 Hkeep' _ _ _ _ _ _ _ _ _ HP H)
       end; try assumption.
  destruct (valid out); cbn [negb]; lazy beta iota.
  - now apply IH.
  - destruct raise_on_error; post_step; assumption.
Qed.

Lemma check_items_keeps (P : Cache value -> Prop) items args options parents
    raise_on_error imm s :
  callees_keep callees P -> P (cache s) ->
  post (check_items callees items args options parents raise_on_error imm) s
    (fun _ s' _ => P (cache s')).
Proof.
  intros Hkeep. pose proof Hkeep as Hkeep'. unfold callees_keep in Hkeep'.
  revert imm s.
  induction items as [| item items IH]; intros imm s HP; [exact HP |].
  cbn [check_items]. destruct args as [| hint args]; [exact HP |].
  post_step. post_step.
  all: match goal with
       | H : _check_instance_of_typehint _ _ _ _ _ _ _ _ = _ |- _ =>
           pose proof (proj2 Hkeep' _ _ _ _ _ _ _ _ _ HP H)
       end; try assumption.
  destruct (valid out); cbn [negb]; lazy beta iota.
  - now apply IH.
  - destruct raise_on_error; post_step; assumption.
Qed.

(** X6.  The only thing [_check_generic] itself does to the cache is to
    store the verdict valid for (type_hint, obj): a property of the cache
    that the callees keep, and that survives
    [add_cache_entry(type_hint, obj, True, noncachable_types)], holds
    after the call if it held before, however the call ends. *)
Theorem cache_property_kept (P : Cache value -> Prop)
    obj type_hint origin args options parents raise_on_error context s :
  callees_keep callees P ->
  (forall c, P c ->
     P (add_cache_entry type_hint obj IS_VALID (noncachable_types options) c)) ->
  P (cache s) ->
  post (_check_generic callees obj type_hint origin args options parents
          raise_on_error context) s
    (fun _ s' _ => P (cache s')).
Proof.
  intros Hkeep Hadd HP.
  pose proof Hkeep as Hkeep'. unfold callees_keep in Hkeep'.
  unfold _check_generic, check_resolved, check_structure,
    fallback_parameters, parameters_done, fallback_items.
  repeat (post_step || post_dispatch ipattern:(Hkind)
          || (lazy beta iota;
              lazymatch goal with
              | |- post (check_parameters _ _ _ _ _ _) _ _ =>
                  eapply post_weaken;
                  [apply (check_parameters_keeps P); [exact Hkeep | exact HP] |];
                  intros [[? | ?] | ? |] ? ? Hloop
              | |- post (check_items _ _ _ _ _ _ _) _ _ =>
                  eapply post_weaken;
                  [apply (check_items_keeps P); [exact Hkeep | exact HP] |];
                  intros [[? | ?] | ? |] ? ? Hloop
              end)).
  all: cbn [cache valid] in *; try assumption; try (apply Hadd; assumption).
  all: try match goal with
       | H : matcher_call _ _ _ _ _ _ _ _ _ _ = _ |- _ =>
           let Hk := fresh "Hk" in
           pose proof (fun hp => proj1 Hkeep' _ _ _ _ _ _ _ _ _ _ _ hp H) as Hk;
           specialize (Hk HP)
       end; try assumption.
  all: try match goal with
       | H : ?v && immutable ?r = true |- _ =>
           apply andb_true_iff in H as [_ H]; rewrite H
       end; try (apply Hadd; assumption).
Qed.








(** ** The plain checks *)

(** X8.  A hint given without origin that is no container class (not a
    class, or a class that is no subclass of Mapping, Iterable or
    Callable) is checked by [isinstance(obj, type_hint)] alone (lines
    103-115): nothing is called and no set is made; a valid verdict is
    stored when [obj] is immutable; and a TypeError of that [isinstance]
    goes up as it is, whatever [raise_on_error] is. *)
Theorem plain_hint_is_isinstance
    obj type_hint args options parents raise_on_error context s :
  valid_in_cache type_hint obj (cache s) = None ->
  is_non_runtime_protocol type_hint = false ->
  (py_is_class type_hint = false \/
   forall abc, In abc [Mapping; Iterable; Callable] ->
               py_issubclass type_hint abc = Some false) ->
  _check_generic callees obj type_hint None args options parents
    raise_on_error context s
  = match py_isinstance obj type_hint with
    | None => (Raise PyTypeError, s, [])
    | Some false =>
        (if raise_on_error
         then Raise (TypeCheckedTypeError MsgNotInstanceOf VALIDATION_FAILED)
         else Ret (mkCheckResult NOT_VALID (is_immutable obj)), s, [])
    | Some true =>
        if is_immutable obj
        then (Ret (mkCheckResult IS_VALID IS_IMMUTABLE),
              {| cache := add_cache_entry type_hint obj IS_VALID
                            (noncachable_types options) (cache s);
                 sets := sets s |},
              [EvCacheAdd type_hint obj IS_VALID (noncachable_types options)])
        else (Ret (mkCheckResult IS_VALID NOT_IMMUTABLE), s, [])
    end.
Proof.
  intros Hmiss Hproto Hplain.
  assert (Hres : resolve_origin type_hint None args = Ret (None, args)).
  { unfold resolve_origin. destruct Hplain as [-> | Hno]; [reflexivity |].
    destruct (py_is_class type_hint); [| reflexivity].
    rewrite !Hno by (cbn; auto). reflexivity. }
  rewrite (_check_generic_miss callees _ _ _ _ _ _ _ _ _ _ _ Hmiss Hproto Hres).
  unfold check_resolved.
  destruct (py_isinstance obj type_hint) as [[] |]; [| | reflexivity].
  - unfold bind, write_cache, ret. now destruct (is_immutable obj).
  - now destruct raise_on_error.
Qed.


Lemma bare_class_resolved type_hint args kind :
  py_is_class type_hint = true ->
  (forall abc, py_issubclass type_hint abc <> None) ->
  (forall abc, In abc [Mapping; Set_; Sequence; Collection] ->
               py_issubclass type_hint abc = Some true ->
               py_issubclass type_hint Iterable = Some true) ->
  most_specific type_hint = Some kind ->
  resolve_origin type_hint None args = Ret (Some type_hint, bare_args kind).
Proof.
  intros Hclass Hdef Hclosed Hkind.
  unfold resolve_origin. rewrite Hclass.
  unfold most_specific, specificity_order, satisfies in Hkind.
  cbn [List.find] in Hkind.
  pose proof (Hclosed Mapping) as cM. pose proof (Hclosed Set_) as cS.
  pose proof (Hclosed Sequence) as cQ. pose proof (Hclosed Collection) as cC.
  pose proof (Hdef Mapping). pose proof (Hdef Set_).
  pose proof (Hdef Sequence). pose proof (Hdef Collection).
  pose proof (Hdef Iterable). pose proof (Hdef Callable).
  clear Hdef Hclosed.
  destruct (py_issubclass type_hint Mapping) as [[] |]; [| | congruence];
  destruct (py_issubclass type_hint Set_) as [[] |]; [| | congruence | | | congruence];
  destruct (py_issubclass type_hint Sequence) as [[] |]; try congruence;
  destruct (py_issubclass type_hint Collection) as [[] |]; try congruence;
  destruct (py_issubclass type_hint Iterable) as [[] |]; try congruence;
  destruct (py_issubclass type_hint Callable) as [[] |]; try congruence.
  all: repeat case_bool_decide; try congruence.
  all: injection Hkind as <-; cbn [bare_args]; try reflexivity.
  all: exfalso.
  all: try (specialize (cM ltac:(cbn; tauto) eq_refl); discriminate).
  all: try (specialize (cS ltac:(cbn; tauto) eq_refl); discriminate).
  all: try (specialize (cQ ltac:(cbn; tauto) eq_refl); discriminate).
  all: try (specialize (cC ltac:(cbn; tauto) eq_refl); discriminate).
Qed.

(** X10.  A bare container class as hint (lines 88-100): when no origin
    is given and the hint is a class whose most specific protocol is
    [kind], the call is the call with the class as its own origin and
    [Any] for every parameter ([(Any, Any)] for a mapping, [(..., Any)]
    for a callable, [(Any,)] otherwise), whatever [args] was given. *)
Theorem bare_class_is_its_own_origin
    obj type_hint args options parents raise_on_error context s kind :
  py_is_class type_hint = true ->
  (forall abc, py_issubclass type_hint abc <> None) ->
  (forall abc, In abc [Mapping; Set_; Sequence; Collection] ->
               py_issubclass type_hint abc = Some true ->
               py_issubclass type_hint Iterable = Some true) ->
  most_specific type_hint = Some kind ->
  _check_generic callees obj type_hint None args options parents
    raise_on_error context s
  = _check_generic callees obj type_hint (Some type_hint) (bare_args kind)
      options parents raise_on_error context s.
Proof.
  intros Hclass Hdef Hclosed Hkind.
  unfold _check_generic.
  rewrite (bare_class_resolved _ args _ Hclass Hdef Hclosed Hkind).
  now rewrite resolve_origin_some.
Qed.

(** ** The structural matcher and the fallback *)

(** X11.  What is done with the matcher's answer (lines 152-194).  For a
    call that gets to the dispatch with an origin whose most specific
    protocol is [kind], the matcher of that kind is called once, in the
    state where one new set object, the last one, holds the elements of
    [parents] and the token of the call, and:
    a result it returns is returned as it is, the valid ones whatever
    the flags, after the verdict is stored when the result is valid and
    immutable; an invalid result becomes the error TYPE_HINT_MISMATCH
    when [raise_on_error] is set; an exception of the matcher goes up
    unchanged. *)
Theorem matcher_answer_is_passed_on
    obj type_hint origin args options parents raise_on_error context s
    o args' kind :
  valid_in_cache type_hint obj (cache s) = None ->
  is_non_runtime_protocol type_hint = false ->
  resolve_origin type_hint origin args = Ret (Some o, args') ->
  py_isinstance obj o = Some true ->
  (args' <> [] \/ py_isinstance obj type_hint <> Some true) ->
  reaches_matchers o = true ->
  (forall abc, py_issubclass o abc <> None) ->
  most_specific o = Some kind ->
  post (_check_generic callees obj type_hint origin args options parents
          raise_on_error context) s
    (fun outcome s' _ =>
       exists res s2,
         matcher_call callees kind obj type_hint o args' options
           (length (sets s)) raise_on_error
           (with_new_parents s parents (token_of obj type_hint context))
         = (res, s2) /\
         match res with
         | Ret r =>
             outcome = (if raise_on_error && negb (valid r)
                        then Raise (TypeCheckedTypeError
                                      MsgNotInstanceOfGeneric TYPE_HINT_MISMATCH)
                        else Ret r) /\
             s' = (if valid r && immutable r
                   then {| cache := add_cache_entry type_hint obj IS_VALID
                                      (noncachable_types options) (cache s2);
                           sets := sets s2 |}
                   else s2)
         | Raise e => outcome = Raise e /\ s' = s2
         | Diverge => outcome = Diverge /\ s' = s2
         end).
Proof.
  intros Hmiss Hproto Hres Hinst Hplain Hreach Hdef Hmost.
  run_generic.
  all: try discriminate.
  all: injection Hres as ->; cbn [fst snd] in *.
  all: try match goal with
       | H : Some _ = Some ?v |- _ => is_var v; injection H as <-
       end.
  all: try congruence.
  all: try solve [exfalso; destruct args'; [| discriminate];
                  destruct (py_isinstance obj type_hint) as [[] |];
                  try discriminate; destruct Hplain; congruence].
  all: try solve [exfalso; destruct Hkind; congruence].
  all: try match goal with
       | H : exists abc, py_issubclass _ abc = None |- _ =>
           exfalso; destruct H as [abc Habc]; exact (Hdef _ Habc)
       end.
  all: rewrite Hmost in Hkind; injection Hkind as <-.
  all: match goal with
       | H : matcher_call _ _ _ _ _ _ _ _ _ ?st = _ |- _ =>
           let Hst := fresh "Hst" in
           pose proof (copy_add_state s parents
                         (token_of obj type_hint context)) as Hst;
           match type of Hst with
           | ?l = _ => change st with l in H
           end;
           rewrite Hst in H;
           eexists; eexists; split; [exact H |]
       end.
  all: try match goal with
       | r : CheckResult |- _ => destruct r as [[] []]
       end.
  all: cbn [valid immutable andb negb] in *.
  all: destruct raise_on_error; try discriminate; split; reflexivity.
Qed.

Lemma dispatch_skipped_state obj type_hint o args options parents
    raise_on_error context imm s :
  reaches_matchers o = false ->
  check_structure callees obj type_hint o args options parents raise_on_error
    context imm s
  = bind (fallback_parameters callees obj type_hint o args options parents
            raise_on_error imm)
      (fun p =>
         match p with
         | inl r => ret r
         | inr _ =>
             fallback_items callees obj type_hint args options parents
               raise_on_error imm
         end)
      (with_new_parents s parents (token_of obj type_hint context)).
Proof.
  intros Hroute. unfold check_structure.
  unfold bind at 1. unfold set_copy.
  unfold bind at 1. unfold set_add.
  unfold bind at 1. rewrite dispatch_not_reached by assumption.
  pose proof (copy_add_state s parents (token_of obj type_hint context)) as Hst.
  cbn [cache sets] in *. unfold token_of in *. rewrite Hst.
  match goal with
  | |- _ = ?m => destruct m as [[? ?] ?]
  end.
  reflexivity.
Qed.


(** X12.  A recorded [__orig_class__] whose number of arguments differs
    from that of the hint is not compared with it at all: the test of
    line 204 fails, line 221 skips the parameters of the type, and, when
    no matcher is reached and [obj] has no [__iter__], the call returns
    [CheckResult(IS_VALID, is_immutable(obj))] whatever [raise_on_error]
    is, with no matcher called and no nested check made. *)
Theorem orig_class_arity_mismatch_is_accepted
    obj type_hint origin args options parents raise_on_error context s
    o args' obj_args :
  valid_in_cache type_hint obj (cache s) = None ->
  is_non_runtime_protocol type_hint = false ->
  resolve_origin type_hint origin args = Ret (Some o, args') ->
  py_isinstance obj o = Some true ->
  reaches_matchers o = false ->
  py_orig_class_args obj = Some obj_args ->
  length obj_args <> length args' ->
  py_has_iter obj = false ->
  let '(outcome, s', trace) :=
    _check_generic callees obj type_hint origin args options parents
      raise_on_error context s in
  outcome = Ret (mkCheckResult IS_VALID (is_immutable obj)) /\
  trace = (if is_immutable obj
           then [EvCacheAdd type_hint obj IS_VALID (noncachable_types options)]
           else []).
Proof.
  intros Hmiss Hproto Hres Hinst Hroute Horig Hlen Hiter.
  rewrite (_check_generic_miss callees _ _ _ _ _ _ _ _ _ _ _ Hmiss Hproto Hres).
  unfold check_resolved. rewrite Hinst.
  match goal with |- context [if ?b then _ else _] => destruct b end.
  - unfold bind, write_cache, ret.
    destruct (is_immutable obj); cbn; auto.
  - rewrite dispatch_skipped_state by assumption.
    unfold fallback_parameters. rewrite Horig.
    apply Nat.eqb_neq in Hlen. rewrite Hlen.
    rewrite bind_ret_l.
    unfold fallback_items. rewrite Hiter.
    unfold bind, write_cache, ret.
    destruct (is_immutable obj), raise_on_error; cbn; auto.
Qed.

(** X13.  [args[0]] on an empty [args] (line 244).  For a hint with an
    origin and no arguments that [obj] is no plain instance of, when no
    matcher is reached and no generic parameters are compared, an [obj]
    that yields at least one item makes the call raise IndexError, not a
    typed error and whatever [raise_on_error] is, before any nested
    check; the set made at line 152 is all it leaves. *)
Theorem empty_args_with_items_raise_index_error
    obj type_hint origin args options parents raise_on_error context s
    o item rest :
  valid_in_cache type_hint obj (cache s) = None ->
  is_non_runtime_protocol type_hint = false ->
  resolve_origin type_hint origin args = Ret (Some o, []) ->
  py_isinstance obj o = Some true ->
  py_isinstance obj type_hint <> Some true ->
  reaches_matchers o = false ->
  ((exists p ps, py_orig_class_args obj = Some (p :: ps)) \/
   (py_orig_class_args obj = None /\
    type_records_parameters obj o [] = false)) ->
  py_has_iter obj = true ->
  py_iter obj = Some (item :: rest) ->
  _check_generic callees obj type_hint origin args options parents
    raise_on_error context s
  = (Raise PyIndexError,
     with_new_parents s parents (token_of obj type_hint context), []).
Proof.
  intros Hmiss Hproto Hres Hinst Hplain Hroute Hparams Hiter Hitems.
  rewrite (_check_generic_miss callees _ _ _ _ _ _ _ _ _ _ _ Hmiss Hproto Hres).
  unfold check_resolved. rewrite Hinst.
  assert (Hno : match py_isinstance obj type_hint with
                | Some b => b
                | None => false
                end = false).
  { destruct (py_isinstance obj type_hint) as [[] |]; congruence. }
  rewrite Hno.
  rewrite dispatch_skipped_state by assumption.
  assert (Hfp : forall s1,
             fallback_parameters callees obj type_hint o [] options parents
               raise_on_error (is_immutable obj) s1 = (Ret (inr tt), s1, [])).
  { intros s1. destruct Hparams as [(p & ps & Horig) | [Horig Htype]].
    - unfold fallback_parameters. now rewrite Horig.
    - now apply fallback_parameters_none. }
  unfold bind at 1. rewrite Hfp.
  unfold fallback_items. rewrite Hiter, Hitems. reflexivity.
Qed.

(** ** What the fallback compares *)








End Paths.

(** ** More on [CacheKey] *)

Section CacheKeyMore.
Context {value : Type} `{!PyRuntime value}.

(** X15.  [None] as the type of a key stands for [type(None)]
    ([__init__], the [is None] test): the key made for [None] and the
    key made for [type(None)] are equal by [__eq__] exactly when they
    are made for the same object, and then have the same hash, so that
    in a dict they are one key. *)
Theorem none_is_keyed_as_its_type (a b : value) :
  CacheKey__eq__ (CacheKey__init__ py_None a) (CacheKey__init__ py_NoneType b)
  = py_is a b /\
  (py_is a b = true ->
   dict_key_match (CacheKey__init__ py_None a) (CacheKey__init__ py_NoneType b)
   = true).
Proof.
  assert (Hkey : forall x, CacheKey__init__ py_None x
                           = CacheKey__init__ py_NoneType x).
  { intros x. unfold CacheKey__init__, py_is. rewrite Z.eqb_refl.
    now destruct (py_id py_NoneType =? py_id py_None). }
  rewrite Hkey.
  assert (Heq : CacheKey__eq__ (CacheKey__init__ py_NoneType a)
                  (CacheKey__init__ py_NoneType b) = py_is a b).
  { unfold CacheKey__eq__, CacheKey__init__, py_item_eq, py_is.
    cbn [obj_type instance_id py_tuple_eq].
    rewrite Z.eqb_refl. cbn [orb].
    now destruct (py_id a =? py_id b). }
  split; [exact Heq |].
  intros Hab. unfold dict_key_match. rewrite Heq, Hab, andb_true_r.
  apply Z.eqb_eq. unfold CacheKey__hash__, CacheKey__init__.
  cbn [obj_type instance_id].
  unfold py_is in Hab. apply Z.eqb_eq in Hab. now rewrite Hab.
Qed.

(** X16.  [CacheKey.__eq__] is an equivalence on keys as soon as [==] on
    the stored types is symmetric and the comparison of two types
    (identity, then [==]) is transitive; reflexivity needs nothing of
    [==], the comparison of tuples trying identity first. *)
Theorem cache_key_eq_is_an_equivalence :
  (forall a b : value, py_eq a b = py_eq b a) ->
  (forall a b c : value,
     py_item_eq a b = true -> py_item_eq b c = true -> py_item_eq a c = true) ->
  (forall k : CacheKey value, CacheKey__eq__ k k = true) /\
  (forall k1 k2 : CacheKey value, CacheKey__eq__ k1 k2 = CacheKey__eq__ k2 k1) /\
  (forall k1 k2 k3 : CacheKey value,
     CacheKey__eq__ k1 k2 = true -> CacheKey__eq__ k2 k3 = true ->
     CacheKey__eq__ k1 k3 = true).
Proof.
  intros Hsym Htrans. repeat split.
  - intros k. apply CacheKey__eq__spec. split; [| reflexivity].
    unfold py_item_eq, py_is. now rewrite Z.eqb_refl.
  - intros k1 k2. unfold CacheKey__eq__, py_item_eq, py_is.
    cbn [py_tuple_eq].
    now rewrite (Z.eqb_sym (py_id (obj_type k1))), (Hsym (obj_type k1)),
      (Z.eqb_sym (instance_id k1)).
  - intros k1 k2 k3 H12 H23.
    apply CacheKey__eq__spec in H12 as [Ht12 Hi12].
    apply CacheKey__eq__spec in H23 as [Ht23 Hi23].
    apply CacheKey__eq__spec. split; [eauto | congruence].
Qed.

End CacheKeyMore.

(** ** The statements above on the small runtime *)

Module ToyMoreFacts.
Import Toy ToyMore.

Lemma served_from_cache_witness :
  is_noncachable o_one (noncachable_types options) = false /\
  post (_check_generic (callees 0) o_one c_int None [] options 0%nat false
          top_context) s0
    (fun outcome s1 _ =>
       forall r, outcome = Ret r -> valid r = true -> immutable r = true ->
         forall (callees' : @Callees tv) origin' args' options' parents'
                raise_on_error' context',
           _check_generic callees' o_one c_int origin' args' options'
             parents' raise_on_error' context' s1
           = (Ret (mkCheckResult IS_VALID IS_IMMUTABLE), s1, [])).
Proof.
  split; [reflexivity |].
  apply (valid_immutable_result_served_from_cache (callees 0) o_one c_int None
           [] options 0%nat false top_context s0).
  reflexivity.
Defined.

Lemma idle_callees_keep (P : Cache tv -> Prop) : callees_keep idle_callees P.
Proof.
  split.
  - intros kind obj h o args opts p raise_on_error s out s' HP Hcall.
    destruct kind; injection Hcall as _ <-; exact HP.
  - intros item h opts p raise_on_error ctx s out s' HP Hcall.
    injection Hcall as _ <-; exact HP.
Qed.

Lemma valid_verdict_kept type_hint obj noncachable (c : Cache tv) :
  only_valid_verdicts c ->
  only_valid_verdicts (add_cache_entry type_hint obj IS_VALID noncachable c).
Proof.
  unfold only_valid_verdicts, add_cache_entry, cache_store. intros Hc.
  destruct (is_noncachable obj noncachable); [exact Hc |].
  constructor; [reflexivity |].
  induction Hc as [| e c He Hc IH]; cbn; [constructor |].
  destruct (negb _); [constructor |]; assumption.
Qed.

Lemma cache_property_witness :
  callees_keep idle_callees only_valid_verdicts /\
  (forall c, only_valid_verdicts c ->
     only_valid_verdicts
       (add_cache_entry c_int o_one IS_VALID (noncachable_types options) c)) /\
  only_valid_verdicts (cache s0) /\
  post (_check_generic idle_callees o_one c_int None [] options 0%nat false
          top_context) s0
    (fun _ s' _ => only_valid_verdicts (cache s')).
Proof.
  assert (H1 := idle_callees_keep only_valid_verdicts).
  assert (H2 := valid_verdict_kept c_int o_one (noncachable_types options)).
  assert (H3 : only_valid_verdicts (cache s0)) by constructor.
  split; [exact H1 |]. split; [exact H2 |]. split; [exact H3 |].
  exact (cache_property_kept idle_callees only_valid_verdicts o_one c_int None
           [] options 0%nat false top_context s0 H1 H2 H3).
Defined.

Lemma plain_hint_witness :
  valid_in_cache c_int o_x (cache s0) = None /\
  is_non_runtime_protocol c_int = false /\
  (py_is_class c_int = false \/
   forall abc, In abc [Mapping; Iterable; Callable] ->
               py_issubclass c_int abc = Some false) /\
  _check_generic (callees 0) o_x c_int None [] options 0%nat true
    top_context s0
  = match py_isinstance o_x c_int with
    | None => (Raise PyTypeError, s0, [])
    | Some false =>
        (if true
         then Raise (TypeCheckedTypeError MsgNotInstanceOf VALIDATION_FAILED)
         else Ret (mkCheckResult NOT_VALID (is_immutable o_x)), s0, [])
    | Some true =>
        if is_immutable o_x
        then (Ret (mkCheckResult IS_VALID IS_IMMUTABLE),
              {| cache := add_cache_entry c_int o_x IS_VALID
                            (noncachable_types options) (cache s0);
                 sets := sets s0 |},
              [EvCacheAdd c_int o_x IS_VALID (noncachable_types options)])
        else (Ret (mkCheckResult IS_VALID NOT_IMMUTABLE), s0, [])
    end.
Proof.
  assert (H : py_is_class c_int = false \/
              forall abc, In abc [Mapping; Iterable; Callable] ->
                          py_issubclass c_int abc = Some false)
    by (right; intros [] _; reflexivity).
  do 2 (split; [reflexivity |]). split; [exact H |].
  apply (plain_hint_is_isinstance (callees 0) o_x c_int [] options 0%nat true
           top_context s0); [reflexivity | reflexivity | exact H].
Defined.


Lemma bare_class_witness :
  py_is_class c_dict = true /\
  (forall abc, py_issubclass c_dict abc <> None) /\
  (forall abc, In abc [Mapping; Set_; Sequence; Collection] ->
               py_issubclass c_dict abc = Some true ->
               py_issubclass c_dict Iterable = Some true) /\
  most_specific c_dict = Some Mapping /\
  _check_generic (callees 2) o_dict c_dict None [] options 0%nat false
    top_context s0
  = _check_generic (callees 2) o_dict c_dict (Some c_dict) (bare_args Mapping)
      options 0%nat false top_context s0.
Proof.
  assert (H1 : forall abc, py_issubclass c_dict abc <> None)
    by (intros []; discriminate).
  assert (H2 : forall abc, In abc [Mapping; Set_; Sequence; Collection] ->
               py_issubclass c_dict abc = Some true ->
               py_issubclass c_dict Iterable = Some true)
    by (intros; reflexivity).
  split; [reflexivity |]. split; [exact H1 |]. split; [exact H2 |].
  split; [reflexivity |].
  apply (bare_class_is_its_own_origin (callees 2) o_dict c_dict [] options
           0%nat false top_context s0 Mapping);
    first [reflexivity | exact H1 | exact H2].
Defined.

Lemma matcher_answer_witness :
  valid_in_cache h_list_int o_list (cache s0) = None /\
  is_non_runtime_protocol h_list_int = false /\
  resolve_origin h_list_int (Some c_list) [c_int] = Ret (Some c_list, [c_int]) /\
  py_isinstance o_list c_list = Some true /\
  ([c_int] <> [] \/ py_isinstance o_list h_list_int <> Some true) /\
  reaches_matchers c_list = true /\
  (forall abc, py_issubclass c_list abc <> None) /\
  most_specific c_list = Some Sequence /\
  post (_check_generic (callees 2) o_list h_list_int (Some c_list) [c_int]
          options 0%nat true top_context) s0
    (fun outcome s' _ =>
       exists res s2,
         matcher_call (callees 2) Sequence o_list h_list_int c_list [c_int]
           options (length (sets s0)) true
           (with_new_parents s0 0%nat (token_of o_list h_list_int top_context))
         = (res, s2) /\
         match res with
         | Ret r =>
             outcome = (if true && negb (valid r)
                        then Raise (TypeCheckedTypeError
                                      MsgNotInstanceOfGeneric TYPE_HINT_MISMATCH)
                        else Ret r) /\
             s' = (if valid r && immutable r
                   then {| cache := add_cache_entry h_list_int o_list IS_VALID
                                      (noncachable_types options) (cache s2);
                           sets := sets s2 |}
                   else s2)
         | Raise e => outcome = Raise e /\ s' = s2
         | Diverge => outcome = Diverge /\ s' = s2
         end).
Proof.
  assert (H1 : [c_int] <> [] \/ py_isinstance o_list h_list_int <> Some true)
    by (left; discriminate).
  assert (H2 : forall abc, py_issubclass c_list abc <> None)
    by (intros []; discriminate).
  do 4 (split; [reflexivity |]). split; [exact H1 |].
  split; [reflexivity |]. split; [exact H2 |]. split; [reflexivity |].
  apply (matcher_answer_is_passed_on (callees 2) o_list h_list_int
           (Some c_list) [c_int] options 0%nat true top_context s0 c_list
           [c_int] Sequence);
    first [reflexivity | exact H1 | exact H2].
Defined.

Lemma index_error_witness :
  valid_in_cache h_FrozenBag_int o_frozen_bag (cache s0) = None /\
  is_non_runtime_protocol h_FrozenBag_int = false /\
  resolve_origin h_FrozenBag_int (Some c_FrozenBag) [] = Ret (Some c_FrozenBag, []) /\
  py_isinstance o_frozen_bag c_FrozenBag = Some true /\
  py_isinstance o_frozen_bag h_FrozenBag_int <> Some true /\
  reaches_matchers c_FrozenBag = false /\
  ((exists p ps, py_orig_class_args o_frozen_bag = Some (p :: ps)) \/
   (py_orig_class_args o_frozen_bag = None /\
    type_records_parameters o_frozen_bag c_FrozenBag [] = false)) /\
  py_has_iter o_frozen_bag = true /\
  py_iter o_frozen_bag = Some [o_x] /\
  _check_generic (callees 0) o_frozen_bag h_FrozenBag_int (Some c_FrozenBag) []
    options 0%nat false top_context s0
  = (Raise PyIndexError,
     with_new_parents s0 0%nat
       (token_of o_frozen_bag h_FrozenBag_int top_context), []).
Proof.
  assert (H1 : py_isinstance o_frozen_bag h_FrozenBag_int <> Some true)
    by discriminate.
  assert (H2 : (exists p ps, py_orig_class_args o_frozen_bag = Some (p :: ps)) \/
               (py_orig_class_args o_frozen_bag = None /\
                type_records_parameters o_frozen_bag c_FrozenBag [] = false))
    by (right; split; reflexivity).
  do 4 (split; [reflexivity |]). split; [exact H1 |].
  split; [reflexivity |]. split; [exact H2 |].
  do 2 (split; [reflexivity |]).
  apply (empty_args_with_items_raise_index_error (callees 0) o_frozen_bag
           h_FrozenBag_int (Some c_FrozenBag) [] options 0%nat false
           top_context s0 c_FrozenBag o_x []);
    first [reflexivity | exact H1 | exact H2].
Defined.



Lemma item_eq_is_same_representative (a b : tv) :
  py_item_eq a b = bool_decide (representative a = representative b).
Proof. destruct a, b; reflexivity. Qed.

Lemma eq_symmetric_toy (a b : tv) : py_eq a b = py_eq b a.
Proof. destruct a, b; reflexivity. Qed.

Lemma item_eq_transitive_toy (a b c : tv) :
  py_item_eq a b = true -> py_item_eq b c = true -> py_item_eq a c = true.
Proof.
  rewrite !item_eq_is_same_representative, !bool_decide_eq_true. congruence.
Qed.

Lemma cache_key_equivalence_witness :
  (forall a b : tv, py_eq a b = py_eq b a) /\
  (forall a b c : tv,
     py_item_eq a b = true -> py_item_eq b c = true -> py_item_eq a c = true) /\
  (forall k : CacheKey tv, CacheKey__eq__ k k = true) /\
  (forall k1 k2 : CacheKey tv, CacheKey__eq__ k1 k2 = CacheKey__eq__ k2 k1) /\
  (forall k1 k2 k3 : CacheKey tv,
     CacheKey__eq__ k1 k2 = true -> CacheKey__eq__ k2 k3 = true ->
     CacheKey__eq__ k1 k3 = true).
Proof.
  split; [exact eq_symmetric_toy |]. split; [exact item_eq_transitive_toy |].
  exact (cache_key_eq_is_an_equivalence eq_symmetric_toy item_eq_transitive_toy).
Defined.

End ToyMoreFacts.

(** The runtime where [Box()] records two arguments. *)
Module ToyOrigFacts.
Import Toy ToyMore.
#[local] Existing Instance runtime_orig | 0.

Lemma arity_mismatch_witness :
  valid_in_cache h_Box_int o_box (cache s0) = None /\
  is_non_runtime_protocol h_Box_int = false /\
  resolve_origin h_Box_int (Some c_Box) [c_int] = Ret (Some c_Box, [c_int]) /\
  py_isinstance o_box c_Box = Some true /\
  reaches_matchers c_Box = false /\
  py_orig_class_args o_box = Some [c_int; c_str] /\
  length [c_int; c_str] <> length [c_int] /\
  py_has_iter o_box = false /\
  let '(outcome, s', trace) :=
    _check_generic idle_callees o_box h_Box_int (Some c_Box) [c_int] options
      0%nat true top_context s0 in
  outcome = Ret (mkCheckResult IS_VALID (is_immutable o_box)) /\
  trace = (if is_immutable o_box
           then [EvCacheAdd h_Box_int o_box IS_VALID (noncachable_types options)]
           else []).
Proof.
  assert (H : length [c_int; c_str] <> length [c_int]) by discriminate.
  do 6 (split; [reflexivity |]). split; [exact H |]. split; [reflexivity |].
  apply (orig_class_arity_mismatch_is_accepted idle_callees o_box h_Box_int
           (Some c_Box) [c_int] options 0%nat true top_context s0 c_Box
           [c_int] [c_int; c_str]);
    first [reflexivity | exact H].
Defined.

End ToyOrigFacts.
